(** * CodeRefine backend ([main.py]): startup of the capability handles and
      the [/analyze] request handler.

    The module keeps three nullable module-level handles (the local
    security scanner and the Gemini and Groq clients).  [lifespan] fills
    them once at startup; [analyze_code] reads them for every request.
    The scanner and the two hosted providers are external: they are
    modelled as operations on an abstract external world [W], so that
    what the handler itself does with them can be stated and proved. *)

From Stdlib Require Import String Ascii List ZArith Bool Lia.
Import ListNotations.
Local Open Scope string_scope.
Set Warnings "-register-all".

(** ** Python values that flow through the handler *)

(** The results of the scanner and of the providers are arbitrary Python
    objects.  [PyObj cls repr attrs] is a plain instance of class [cls]
    whose [str()] is [repr] and whose data attributes are [attrs]. *)
Inductive pyval : Type :=
| PyNone
| PyStr (s : string)
| PyList (xs : list pyval)
| PyDict (kvs : list (string * pyval))
| PyObj (cls : string) (repr : string) (attrs : list (string * pyval)).

(** Exceptions deriving from [Exception].  fastapi's [HTTPException] is
    kept apart since the handler re-raises it; every other class is
    [Exception cls msg], with [msg] what [str(e)] gives. *)
Inductive exn : Type :=
| HTTPException (status_code : Z) (detail : string)
| Exception (cls : string) (msg : string).

Definition is_HTTPException (e : exn) : bool :=
  match e with HTTPException _ _ => true | Exception _ _ => false end.

Fixpoint assoc {A : Type} (k : string) (kvs : list (string * A)) : option A :=
  match kvs with
  | [] => None
  | (k', v) :: rest => if String.eqb k k' then Some v else assoc k rest
  end.

Definition type_name (v : pyval) : string :=
  match v with
  | PyNone => "NoneType"
  | PyStr _ => "str"
  | PyList _ => "list"
  | PyDict _ => "dict"
  | PyObj cls _ _ => cls
  end.

Definition no_attribute (v : pyval) (name : string) : exn :=
  Exception "AttributeError"
    ("'" ++ type_name v ++ "' object has no attribute '" ++ name ++ "'").

(** [v[0]] *)
Definition py_getitem0 (v : pyval) : exn + pyval :=
  match v with
  | PyList (x :: _) => inr x
  | PyList [] => inl (Exception "IndexError" "list index out of range")
  | PyStr (String c _) => inr (PyStr (String c EmptyString))
  | PyStr EmptyString => inl (Exception "IndexError" "string index out of range")
  | PyDict _ => inl (Exception "KeyError" "0")
  | PyNone | PyObj _ _ _ =>
      inl (Exception "TypeError" ("'" ++ type_name v ++ "' object is not subscriptable"))
  end.

(** [v.name] for the data attributes the handler reads ([choices],
    [message], [content], [text]): none of them exists on a builtin
    value, so only instances can have them. *)
Definition py_getattr (v : pyval) (name : string) : exn + pyval :=
  match v with
  | PyObj _ _ attrs =>
      match assoc name attrs with
      | Some x => inr x
      | None => inl (no_attribute v name)
      end
  | _ => inl (no_attribute v name)
  end.

(** [getattr(v, name, default)] *)
Definition py_getattr_default (v : pyval) (name : string) (default : pyval) : pyval :=
  match py_getattr v name with
  | inr x => x
  | inl _ => default
  end.

(** [v.get(key, default)]: the [dict] method; data attributes of an
    instance are not callable. *)
Definition py_get (v : pyval) (key : string) (default : pyval) : exn + pyval :=
  match v with
  | PyDict kvs =>
      match assoc key kvs with
      | Some x => inr x
      | None => inr default
      end
  | PyObj _ _ attrs =>
      match assoc "get" attrs with
      | Some x => inl (Exception "TypeError" ("'" ++ type_name x ++ "' object is not callable"))
      | None => inl (no_attribute v "get")
      end
  | _ => inl (no_attribute v "get")
  end.

(** [v == s] for a [str] literal [s] *)
Definition py_eq_str (v : pyval) (s : string) : bool :=
  match v with
  | PyStr s' => String.eqb s' s
  | _ => false
  end.

(** [bool(s)] of a [str] *)
Definition truthy (s : string) : bool :=
  match s with EmptyString => false | String _ _ => true end.

(** [s[:n]]: a [str] is modelled as a [string], one [ascii] for each
    of its characters. *)
Fixpoint slice_to (n : nat) (s : string) {struct s} : string :=
  match s, n with
  | String c s', S n' => String c (slice_to n' s')
  | _, _ => EmptyString
  end.

(** [t in s] for strings: [t] occurs in [s] as a contiguous run. *)
Definition occurs_in (t s : string) : Prop :=
  exists pre post, s = pre ++ t ++ post.

Definition nl : string := String (ascii_of_nat 10) EmptyString.

Definition prompt_head (status : string) : string :=
  nl ++ "        Review this code which the scanner marked as " ++ status ++ "." ++ nl
     ++ "        Provide a brief bug report and then the fully optimized version." ++ nl
     ++ "        " ++ nl
     ++ "        CODE:" ++ nl
     ++ "        ".

Definition prompt_tail : string := nl ++ "        ".

Definition instruction : string :=
  "Provide a brief bug report and then the fully optimized version.".

(** ** Effects: the external world, the event trace and exceptions *)

Inductive level : Type := INFO | WARNING | ERROR.

(** What the module does to its surroundings, in the order it does it:
    log records and calls of external capabilities with their arguments. *)
Inductive event : Type :=
| Log (lvl : level) (fmt : string) (exc : option exn)
| NewPipeline (task model_name : string)
| NewGenaiClient (api_key : string)
| NewGroq (api_key : string)
| CallScanner (text : string)
| CallGroq (messages : list (list (string * string))) (model_name : string)
| CallGemini (model_name : string) (contents : string).

Definition is_provider_call (e : event) : bool :=
  match e with
  | CallGroq _ _ | CallGemini _ _ => true
  | _ => false
  end.

Definition is_scanner_call (e : event) : bool :=
  match e with
  | CallScanner _ => true
  | _ => false
  end.

Definition is_groq_call (e : event) : bool :=
  match e with
  | CallGroq _ _ => true
  | _ => false
  end.

Definition is_gemini_call (e : event) : bool :=
  match e with
  | CallGemini _ _ => true
  | _ => false
  end.

(** The record [lifespan] leaves when it skips the scanner. *)
Definition scanner_disabled_notice : event :=
  Log WARNING "transformers.pipeline not available; security scanner disabled" None.

Definition provider_calls (evs : list event) : list event :=
  filter is_provider_call evs.

Definition scanner_calls (evs : list event) : list event :=
  filter is_scanner_call evs.

Section Backend.

(** State of everything outside the process: the hosted services, the
    model weights, the network. *)
Variable W : Type.

(** [str()] of a builtin container, which lies outside this module. *)
Variable container_str : pyval -> string.

(** [str(v)] *)
Definition py_str (v : pyval) : string :=
  match v with
  | PyNone => "None"
  | PyStr s => s
  | PyObj _ repr _ => repr
  | PyList _ | PyDict _ => container_str v
  end.

(** An external operation returns or raises, and may change the world. *)
Definition ext (A : Type) : Type := W -> (exn + A) * W.

Definition State : Type := (W * list event)%type.

(** Computations of the module: state passing over the world and the
    trace, with Python exceptions as the left summand. *)
Definition M (A : Type) : Type := State -> (exn + A) * State.

Definition ret {A : Type} (a : A) : M A := fun st => (inr a, st).

Definition raise {A : Type} (e : exn) : M A := fun st => (inl e, st).

Definition bind {A B : Type} (m : M A) (k : A -> M B) : M B :=
  fun st =>
    match m st with
    | (inr a, st') => k a st'
    | (inl e, st') => (inl e, st')
    end.

Notation "x <- m ;; k" := (bind m (fun x => k))
  (at level 61, m at next level, right associativity).
Notation "m ;;; k" := (bind m (fun _ => k))
  (at level 61, right associativity).

(** [try: m / except Exception as e: h e] *)
Definition try_except {A : Type} (m : M A) (h : exn -> M A) : M A :=
  fun st =>
    match m st with
    | (inr a, st') => (inr a, st')
    | (inl e, st') => h e st'
    end.

Definition emit (e : event) : M unit :=
  fun st => (inr tt, (fst st, (snd st ++ [e])%list)).

(** A pure step that may raise. *)
Definition lift {A : Type} (r : exn + A) : M A := fun st => (r, st).

(** Calling an external capability: the call is recorded, then run on
    the world. *)
Definition call {A : Type} (e : event) (f : ext A) : M A :=
  fun st =>
    let (r, w') := f (fst st) in (r, (w', (snd st ++ [e])%list)).

Definition logger_info (fmt : string) : M unit := emit (Log INFO fmt None).
Definition logger_warning (fmt : string) : M unit := emit (Log WARNING fmt None).
Definition logger_exception (fmt : string) (e : exn) : M unit :=
  emit (Log ERROR fmt (Some e)).

(** Running a computation from a world with an empty trace: what it
    hands back, what it did, and the world it leaves. *)
Definition outcome {A : Type} (m : M A) (w : W) : exn + A := fst (m (w, [])).
Definition events {A : Type} (m : M A) (w : W) : list event := snd (snd (m (w, []))).
Definition world_after {A : Type} (m : M A) (w : W) : W := fst (snd (m (w, []))).

(** ** Handles *)

Record Scanner : Type := {
  scanner_call : string -> ext pyval
}.

Record GeminiClient : Type := {
  models_generate_content : string -> string -> ext pyval
}.

Record GroqClient : Type := {
  chat_completions_create : list (list (string * string)) -> string -> ext pyval
}.

(** The three module-level names [security_scanner], [gemini_client]
    and [groq_client]. *)
Record Globals : Type := {
  security_scanner : option Scanner;
  gemini_client : option GeminiClient;
  groq_client : option GroqClient
}.

(** Lines 33-35: all three start as [None]. *)
Definition initial_globals : Globals :=
  {| security_scanner := None; gemini_client := None; groq_client := None |}.

(** The outcome of the three guarded imports at the top of the module
    ([None] when the import failed) and the process environment. *)
Record Imports : Type := {
  genai : option (string -> ext GeminiClient);
  Groq : option (string -> ext GroqClient);
  pipeline : option (string -> string -> ext Scanner);
  getenv : string -> option string
}.

Definition is_some {A : Type} (o : option A) : bool :=
  match o with Some _ => true | None => false end.

(** ** [lifespan]: the part before [yield] *)

Definition init_scanner (im : Imports) (g : Globals) : M Globals :=
  if false && is_some (pipeline im) then
    try_except
      (logger_info "Loading Hugging Face security model... this may take a moment" ;;;
       sc <- match pipeline im with
             | Some mk =>
                 call (NewPipeline "text-classification"
                         "mrm8488/codebert-base-finetuned-detect-insecure-code")
                      (mk "text-classification"
                          "mrm8488/codebert-base-finetuned-detect-insecure-code")
             | None =>
                 raise (Exception "TypeError" "'NoneType' object is not callable")
             end ;;
       ret {| security_scanner := Some sc;
              gemini_client := gemini_client g;
              groq_client := groq_client g |})
      (fun e =>
         logger_exception "Failed to load security scanner: %s" e ;;;
         ret {| security_scanner := None;
                gemini_client := gemini_client g;
                groq_client := groq_client g |})
  else
    logger_warning "transformers.pipeline not available; security scanner disabled" ;;;
    ret g.

Definition init_gemini (im : Imports) (g : Globals) : M Globals :=
  let gemini_key := getenv im "GEMINI_API_KEY" in
  match genai im, gemini_key with
  | Some mk, Some key =>
      if truthy key then
        try_except
          (c <- call (NewGenaiClient key) (mk key) ;;
           ret {| security_scanner := security_scanner g;
                  gemini_client := Some c;
                  groq_client := groq_client g |})
          (fun e =>
             logger_exception "Failed to initialize Gemini client: %s" e ;;;
             ret {| security_scanner := security_scanner g;
                    gemini_client := None;
                    groq_client := groq_client g |})
      else
        logger_warning "GEMINI_API_KEY not set; Gemini client disabled" ;;; ret g
  | Some _, None =>
      logger_warning "GEMINI_API_KEY not set; Gemini client disabled" ;;; ret g
  | None, _ =>
      logger_warning "google-genai SDK not installed; Gemini client disabled" ;;; ret g
  end.

Definition init_groq (im : Imports) (g : Globals) : M Globals :=
  let groq_key := getenv im "GROQ_API_KEY" in
  match Groq im, groq_key with
  | Some mk, Some key =>
      if truthy key then
        try_except
          (c <- call (NewGroq key) (mk key) ;;
           ret {| security_scanner := security_scanner g;
                  gemini_client := gemini_client g;
                  groq_client := Some c |})
          (fun e =>
             logger_exception "Failed to initialize Groq client: %s" e ;;;
             ret {| security_scanner := security_scanner g;
                    gemini_client := gemini_client g;
                    groq_client := None |})
      else
        logger_warning "GROQ_API_KEY not set; Groq client disabled" ;;; ret g
  | Some _, None =>
      logger_warning "GROQ_API_KEY not set; Groq client disabled" ;;; ret g
  | None, _ =>
      logger_warning "groq SDK not installed; Groq client disabled" ;;; ret g
  end.

Definition lifespan_startup (im : Imports) (g : Globals) : M Globals :=
  g1 <- init_scanner im g ;;
  g2 <- init_gemini im g1 ;;
  init_groq im g2.

(** The part after [yield]. *)
Definition lifespan_shutdown : M unit :=
  logger_info "Shutting down OptiCode backend".

(** ** The request and the response *)

Record CodePayload : Type := {
  code : string;
  model : string
}.

(** [model: str = "gemini"]: the default applies when the request body
    has no [model] field. *)
Definition mk_payload (c : string) (m : option string) : CodePayload :=
  {| code := c; model := match m with Some x => x | None => "gemini" end |}.

(** The dict the handler returns. *)
Record Response : Type := {
  security_score : string;
  analysis : pyval
}.

(** ** [analyze_code] *)

(** Step A, lines 128-137. *)
Definition scan_step (g : Globals) (payload : CodePayload) : M string :=
  match security_scanner g with
  | Some scanner =>
      if truthy (code payload) then
        try_except
          (hf_result <- call (CallScanner (slice_to 512 (code payload)))
                             (scanner_call scanner (slice_to 512 (code payload))) ;;
           first <- lift (py_getitem0 hf_result) ;;
           raw_label <- lift (py_get first "label" (PyStr "")) ;;
           ret (if py_eq_str raw_label "LABEL_1" then "insecure" else "secure"))
          (fun e =>
             logger_exception "Security scanner failed during analysis" e ;;;
             ret "unknown")
      else ret "unknown"
  | None => ret "unknown"
  end.

Definition indent : string := "        ".

(** Step B, lines 140-146: the f-string, with both fields interpolated
    as they are. *)
Definition build_prompt (status : string) (c : string) : string :=
  nl ++ indent ++ "Review this code which the scanner marked as " ++ status ++ "." ++ nl
     ++ indent ++ "Provide a brief bug report and then the fully optimized version." ++ nl
     ++ indent ++ nl
     ++ indent ++ "CODE:" ++ nl
     ++ indent ++ c ++ nl
     ++ indent.

Definition groq_messages (prompt : string) : list (list (string * string)) :=
  [[("role", "user"); ("content", prompt)]].

(** [chat_completion.choices[0].message.content] *)
Definition groq_text (chat_completion : pyval) : exn + pyval :=
  match py_getattr chat_completion "choices" with
  | inl e => inl e
  | inr choices =>
      match py_getitem0 choices with
      | inl e => inl e
      | inr choice =>
          match py_getattr choice "message" with
          | inl e => inl e
          | inr message => py_getattr message "content"
          end
      end
  end.

(** [getattr(response, 'text', str(response))], on the values of the
    model: [str(response)] returns and reading a stored attribute does
    not raise, so the default is used exactly when [text] is missing. *)
Definition gemini_text (response : pyval) : pyval :=
  py_getattr_default response "text" (PyStr (py_str response)).

(** Step C, lines 149-165. *)
Definition dispatch (g : Globals) (payload : CodePayload) (prompt : string) : M pyval :=
  if String.eqb (model payload) "groq" then
    match groq_client g with
    | None => raise (HTTPException 503 "Groq client not available")
    | Some client =>
        chat_completion <- call (CallGroq (groq_messages prompt) "llama-3.3-70b-versatile")
                                (chat_completions_create client (groq_messages prompt)
                                   "llama-3.3-70b-versatile") ;;
        lift (groq_text chat_completion)
    end
  else
    match gemini_client g with
    | None => raise (HTTPException 503 "Gemini client not available")
    | Some client =>
        response <- call (CallGemini "gemini-2.0-flash" prompt)
                         (models_generate_content client "gemini-2.0-flash" prompt) ;;
        ret (gemini_text response)
    end.

(** The body of the outer [try], lines 127-170. *)
Definition analyze_body (g : Globals) (payload : CodePayload) : M Response :=
  status <- scan_step g payload ;;
  let prompt := build_prompt status (code payload) in
  ai_text <- dispatch g payload prompt ;;
  ret {| security_score := status; analysis := ai_text |}.

(** Lines 172-176: [except HTTPException: raise] comes first, then
    [except Exception as e]. *)
Definition analyze_code (g : Globals) (payload : CodePayload) : M Response :=
  try_except (analyze_body g payload)
    (fun e =>
       match e with
       | HTTPException _ _ => raise e
       | Exception _ msg =>
           logger_exception "Error during analysis: %s" e ;;;
           ret {| security_score := "error";
                  analysis := PyStr ("Backend Error: " ++ msg) |}
       end).

(** What the handler hands back for the verdict of step A and the
    result of step C: the dict of lines 167-170 for a text, the
    exception itself for an [HTTPException] (lines 172-173), the error
    body for any other exception (lines 174-176). *)
Definition answer_of (status : string) (r : exn + pyval) : exn + Response :=
  match r with
  | inr ai_text => inr {| security_score := status; analysis := ai_text |}
  | inl (HTTPException s detail) => inl (HTTPException s detail)
  | inl (Exception _ msg) =>
      inr {| security_score := "error";
             analysis := PyStr ("Backend Error: " ++ msg) |}
  end.

(** What the framework sends for an outcome of the handler: 200 with
    the returned dict (one it can encode as JSON), the exception's own
    status for an [HTTPException], 500 for anything else that escapes. *)
Definition http_status (r : exn + Response) : Z :=
  match r with
  | inr _ => 200
  | inl (HTTPException s _) => s
  | inl (Exception _ _) => 500
  end.

(** ** The process: one startup, then requests, then shutdown *)

Inductive phase : Type := Booting | Serving | Stopped.

Record Process : Type := {
  ph : phase;
  globals : Globals;
  st : State
}.

Definition boot (w : W) : Process :=
  {| ph := Booting; globals := initial_globals; st := (w, []) |}.

(** [lifespan] never fails to hand over (see [lifespan_startup_total]
    below); were it to raise, the server would not start. *)
Inductive step (im : Imports) : Process -> Process -> Prop :=
| step_startup : forall g s g' s',
    lifespan_startup im g s = (inr g', s') ->
    step im {| ph := Booting; globals := g; st := s |}
            {| ph := Serving; globals := g'; st := s' |}
| step_request : forall g s payload r s',
    analyze_code g payload s = (r, s') ->
    step im {| ph := Serving; globals := g; st := s |}
            {| ph := Serving; globals := g; st := s' |}
| step_shutdown : forall g s s',
    lifespan_shutdown s = (inr tt, s') ->
    step im {| ph := Serving; globals := g; st := s |}
            {| ph := Stopped; globals := g; st := s' |}.

(** A computation whose effect on the trace is to append: run from any
    trace, it does what it does from the empty one. *)
Definition framed {A : Type} (m : M A) : Prop :=
  forall w tr,
    m (w, tr) = (outcome m w, (world_after m w, (tr ++ events m w)%list)).

(** The one provider call a request leads to when the handle that
    [payload.model] selects is there, and none when it is not. *)
Definition selected_call (g : Globals) (payload : CodePayload) (prompt : string)
  : list event :=
  if String.eqb (model payload) "groq" then
    match groq_client g with
    | Some _ => [CallGroq (groq_messages prompt) "llama-3.3-70b-versatile"]
    | None => []
    end
  else
    match gemini_client g with
    | Some _ => [CallGemini "gemini-2.0-flash" prompt]
    | None => []
    end.

Definition selected_present (g : Globals) (payload : CodePayload) : bool :=
  if String.eqb (model payload) "groq" then is_some (groq_client g)
  else is_some (gemini_client g).

(** The globals with the handle that [payload.model] does not select
    swapped for another one. *)
Definition swap_unselected (g : Globals) (payload : CodePayload)
    (gem : option GeminiClient) (grq : option GroqClient) : Globals :=
  if String.eqb (model payload) "groq" then
    {| security_scanner := security_scanner g;
       gemini_client := gem;
       groq_client := groq_client g |}
  else
    {| security_scanner := security_scanner g;
       gemini_client := gemini_client g;
       groq_client := grq |}.

(** An external operation whose answer is the same in every state of
    the world: a deterministic stand-in for a capability. *)
Definition answers_alike {A : Type} (f : ext A) : Prop :=
  forall w w', fst (f w) = fst (f w').

Definition deterministic_handles (g : Globals) : Prop :=
  (forall sc text, security_scanner g = Some sc -> answers_alike (scanner_call sc text))
  /\ (forall c m prompt,
        gemini_client g = Some c -> answers_alike (models_generate_content c m prompt))
  /\ (forall c msgs m,
        groq_client g = Some c -> answers_alike (chat_completions_create c msgs m)).

(** The value of [status] when step A is over. *)
Definition verdict (g : Globals) (payload : CodePayload) (w : W) : string :=
  match outcome (scan_step g payload) w with
  | inr status => status
  | inl _ => "unknown"
  end.

(** The prompt a recorded provider call carries. *)
Definition prompt_sent (e : event) : option string :=
  match e with
  | CallGroq [[("role", "user"); ("content", prompt)]] _ => Some prompt
  | CallGemini _ contents => Some contents
  | _ => None
  end.

Inductive reachable (im : Imports) (w : W) : Process -> Prop :=
| reach_boot : reachable im w (boot w)
| reach_step : forall p q, reachable im w p -> step im p q -> reachable im w q.

End Backend.

Arguments ret {W A} a _.
Arguments raise {W A} e _.
Arguments bind {W A B} m k _.
Arguments try_except {W A} m h _.
Arguments outcome {W A} m w.
Arguments events {W A} m w.
Arguments world_after {W A} m w.
Arguments scanner_call {W} _ _ _.
Arguments models_generate_content {W} _ _ _ _.
Arguments chat_completions_create {W} _ _ _ _.
Arguments security_scanner {W} _.
Arguments gemini_client {W} _.
Arguments groq_client {W} _.
Arguments initial_globals {W}.
Arguments genai {W} _.
Arguments Groq {W} _.
Arguments pipeline {W} _.
Arguments getenv {W} _ _.
Arguments init_scanner {W} im g _.
Arguments init_gemini {W} im g _.
Arguments init_groq {W} im g _.
Arguments lifespan_startup {W} im g _.
Arguments lifespan_shutdown {W} _.
Arguments scan_step {W} g payload _.
Arguments dispatch {W} container_str g payload prompt _.
Arguments analyze_body {W} container_str g payload _.
Arguments analyze_code {W} container_str g payload _.
Arguments verdict {W} g payload w.
Arguments ph {W} _.
Arguments globals {W} _.
Arguments st {W} _.
Arguments boot {W} w.
Arguments step {W} container_str im _ _.
Arguments reachable {W} container_str im w _.
Arguments framed {W A} m.
Arguments answers_alike {W A} f.
Arguments deterministic_handles {W} g.
Arguments selected_call {W} g payload prompt.
Arguments selected_present {W} g payload.
Arguments swap_unselected {W} g payload gem grq.
Arguments emit {W} e _.
Arguments lift {W A} r _.
Arguments call {W A} e f _.
Arguments logger_info {W} fmt _.
Arguments logger_warning {W} fmt _.
Arguments logger_exception {W} fmt e _.

(** ** Stand-ins for the external capabilities

    The world is a counter of the calls that reached the outside. *)

Definition plain_str (v : pyval) : string := "<container>".

Definition gemini_response (text : string) : pyval :=
  PyObj "GenerateContentResponse" "GenerateContentResponse()" [("text", PyStr text)].

Definition groq_response (text : string) : pyval :=
  PyObj "ChatCompletion" "ChatCompletion()"
    [("choices",
      PyList [PyObj "Choice" "Choice()"
                [("message",
                  PyObj "ChatCompletionMessage" "ChatCompletionMessage()"
                    [("content", PyStr text)])]])].

(** A completion whose message carries no [content]. *)
Definition groq_bare_response : pyval :=
  PyObj "ChatCompletion" "ChatCompletion()"
    [("choices",
      PyList [PyObj "Choice" "Choice()"
                [("message",
                  PyObj "ChatCompletionMessage" "ChatCompletionMessage()" [])]])].

(** A response object that carries no [text]. *)
Definition gemini_bare_response : pyval :=
  PyObj "GenerateContentResponse" "GenerateContentResponse()" [].

Definition stub_gemini (resp : pyval) : GeminiClient nat :=
  {| models_generate_content := fun _ _ w => (inr resp, S w) |}.

Definition stub_groq (resp : pyval) : GroqClient nat :=
  {| chat_completions_create := fun _ _ w => (inr resp, S w) |}.

Definition stub_scanner (label : string) : Scanner nat :=
  {| scanner_call := fun _ w => (inr (PyList [PyDict [("label", PyStr label)]]), S w) |}.

Definition failing_scanner : Scanner nat :=
  {| scanner_call := fun _ w => (inl (Exception "RuntimeError" "scanner down"), S w) |}.

Definition failing_gemini : GeminiClient nat :=
  {| models_generate_content :=
       fun _ _ w => (inl (Exception "ConnectionError" "network unreachable"), S w) |}.

(** No scanner, Gemini up, Groq absent: what the reference startup
    leaves when only the Gemini key is set. *)
Definition gemini_only : Globals nat :=
  {| security_scanner := None;
     gemini_client := Some (stub_gemini (gemini_response "OK"));
     groq_client := None |}.

(** A scanner that throws in front of a working Gemini client. *)
Definition scanner_down : Globals nat :=
  {| security_scanner := Some failing_scanner;
     gemini_client := Some (stub_gemini (gemini_response "OK"));
     groq_client := None |}.

(** A working scanner and both providers up, each answering with an
    object that lacks the text field. *)
Definition bare_answers : Globals nat :=
  {| security_scanner := Some (stub_scanner "LABEL_1");
     gemini_client := Some (stub_gemini gemini_bare_response);
     groq_client := Some (stub_groq groq_bare_response) |}.

(** A working scanner and both providers up and answering. *)
Definition all_up : Globals nat :=
  {| security_scanner := Some (stub_scanner "LABEL_1");
     gemini_client := Some (stub_gemini (gemini_response "OK"));
     groq_client := Some (stub_groq (groq_response "fixed")) |}.

(** The process once [lifespan] has run on [sample_imports]. *)
Definition sample_served (im : Imports nat) : Process nat :=
  match lifespan_startup im initial_globals (0, []) with
  | (inr g, s) => {| ph := Serving; globals := g; st := s |}
  | (inl _, _) => boot 0
  end.

(** A deployment where every SDK is importable and both keys are set,
    but the Groq constructor throws. *)
Definition sample_imports : Imports nat :=
  {| genai := Some (fun _ w => (inr (stub_gemini (gemini_response "OK")), S w));
     Groq := Some (fun _ w => (inl (Exception "GroqError" "bad api key"), S w));
     pipeline := Some (fun _ _ w => (inr (stub_scanner "LABEL_1"), S w));
     getenv := fun name =>
       if String.eqb name "GEMINI_API_KEY" then Some "g-key"
       else if String.eqb name "GROQ_API_KEY" then Some "q-key"
       else None |}.

(** A deployment with no SDK and no key at all. *)
Definition bare_imports : Imports nat :=
  {| genai := None; Groq := None; pipeline := None; getenv := fun _ => None |}.

(** ** Further stand-ins *)

Definition is_pipeline_call (e : event) : bool :=
  match e with
  | NewPipeline _ _ => true
  | _ => false
  end.

Definition is_constructor_call (e : event) : bool :=
  match e with
  | NewPipeline _ _ | NewGenaiClient _ | NewGroq _ => true
  | _ => false
  end.

(** Neither a call of the scanner or of a provider nor the
    construction of the scanner. *)
Definition is_startup_event (e : event) : bool :=
  match e with
  | Log _ _ _ | NewGenaiClient _ | NewGroq _ => true
  | _ => false
  end.

(** The imports with another outcome for [from transformers import
    pipeline]. *)
Definition with_pipeline {W : Type} (im : Imports W)
    (pl : option (string -> string -> ext W (Scanner W))) : Imports W :=
  {| genai := genai im; Groq := Groq im; pipeline := pl; getenv := getenv im |}.

(** A completion whose message has the given [content]. *)
Definition groq_response_with (content : pyval) : pyval :=
  PyObj "ChatCompletion" "ChatCompletion()"
    [("choices",
      PyList [PyObj "Choice" "Choice()"
                [("message",
                  PyObj "ChatCompletionMessage" "ChatCompletionMessage()"
                    [("content", content)])]])].

(** Both providers answering with an object whose text is [None]. *)
Definition none_answers : Globals nat :=
  {| security_scanner := None;
     gemini_client :=
       Some (stub_gemini (PyObj "GenerateContentResponse" "GenerateContentResponse()"
                            [("text", PyNone)]));
     groq_client := Some (stub_groq (groq_response_with PyNone)) |}.

(** A scanner whose result has a score and no label. *)
Definition unlabelled_scanner : Scanner nat :=
  {| scanner_call := fun _ w => (inr (PyList [PyDict [("score", PyStr "0.98")]]), S w) |}.

Definition unlabelled : Globals nat :=
  {| security_scanner := Some unlabelled_scanner;
     gemini_client := Some (stub_gemini (gemini_response "OK"));
     groq_client := None |}.

(** * Properties *)

Section Properties.

Variable W : Type.
Variable container_str : pyval -> string.

Implicit Types (g : Globals W) (p : CodePayload) (w : W) (tr : list event).

Ltac unfold_m :=
  unfold analyze_code, analyze_body, dispatch, scan_step, try_except, bind,
    call, lift, ret, raise, logger_exception, logger_warning, logger_info, emit in *.

(** ** The trace only grows *)

Lemma framed_ret {A : Type} (a : A) : framed (@ret W A a).
Proof. intros w tr. unfold outcome, world_after, events, ret; simpl. now rewrite app_nil_r. Qed.

Lemma framed_raise {A : Type} (e : exn) : framed (@raise W A e).
Proof. intros w tr. unfold outcome, world_after, events, raise; simpl. now rewrite app_nil_r. Qed.

Lemma framed_lift {A : Type} (r : exn + A) : framed (@lift W A r).
Proof. intros w tr. unfold outcome, world_after, events, lift; simpl. now rewrite app_nil_r. Qed.

Lemma framed_emit (e : event) : framed (@emit W e).
Proof. intros w tr. reflexivity. Qed.

Lemma framed_call {A : Type} (e : event) (f : ext W A) : framed (call e f).
Proof.
  intros w tr. unfold outcome, world_after, events, call; simpl.
  destruct (f w) as [r w']; reflexivity.
Qed.

Lemma framed_bind {A B : Type} (m : M W A) (k : A -> M W B) :
  framed m -> (forall a, framed (k a)) -> framed (bind m k).
Proof.
  intros Hm Hk w tr. unfold outcome, world_after, events, bind.
  rewrite (Hm w tr). unfold outcome, world_after, events.
  destruct (m (w, [])) as [[e | a] [w' evs]]; simpl; [reflexivity |].
  rewrite (Hk a w' (tr ++ evs)%list), (Hk a w' evs); simpl.
  now rewrite app_assoc.
Qed.

Lemma framed_try {A : Type} (m : M W A) (h : exn -> M W A) :
  framed m -> (forall e, framed (h e)) -> framed (try_except m h).
Proof.
  intros Hm Hh w tr. unfold outcome, world_after, events, try_except.
  rewrite (Hm w tr). unfold outcome, world_after, events.
  destruct (m (w, [])) as [[e | a] [w' evs]]; simpl; [| reflexivity].
  rewrite (Hh e w' (tr ++ evs)%list), (Hh e w' evs); simpl.
  now rewrite app_assoc.
Qed.

Ltac frame :=
  repeat first
    [ apply framed_ret | apply framed_raise | apply framed_lift
    | apply framed_emit | apply framed_call
    | apply framed_bind; [| intro] | apply framed_try; [| intro]
    | progress unfold logger_exception, logger_warning, logger_info ].

Lemma framed_scan_step g p : framed (scan_step g p).
Proof.
  unfold scan_step. destruct (security_scanner g); [| frame].
  destruct (truthy (code p)); frame.
Qed.

Lemma framed_dispatch g p prompt : framed (dispatch container_str g p prompt).
Proof.
  unfold dispatch. destruct (String.eqb (model p) "groq").
  - destruct (groq_client g); frame.
  - destruct (gemini_client g); frame.
Qed.

Lemma framed_analyze_code g p : framed (analyze_code container_str g p).
Proof.
  unfold analyze_code, analyze_body. apply framed_try.
  - apply framed_bind; [apply framed_scan_step | intro status].
    apply framed_bind; [apply framed_dispatch | intro; frame].
  - intros [s d | c m]; frame.
Qed.

(** ** Step A on its own *)

Lemma scan_step_outcome g p w :
  outcome (scan_step g p) w = inr (verdict g p w).
Proof.
  unfold verdict, outcome, scan_step.
  destruct (security_scanner g) as [sc |]; [| reflexivity].
  destruct (truthy (code p)); [| reflexivity].
  unfold_m; simpl.
  destruct (scanner_call sc (slice_to 512 (code p)) w) as [[e | r] w1]; simpl;
    [reflexivity |].
  destruct (py_getitem0 r) as [e | first]; simpl; [reflexivity |].
  destruct (py_get first "label" (PyStr "")) as [e | lbl]; reflexivity.
Qed.

Lemma verdict_values g p w :
  verdict g p w = "insecure" \/ verdict g p w = "secure" \/ verdict g p w = "unknown".
Proof.
  unfold verdict, outcome, scan_step.
  destruct (security_scanner g) as [sc |]; [| auto].
  destruct (truthy (code p)); [| auto].
  unfold_m; simpl.
  destruct (scanner_call sc (slice_to 512 (code p)) w) as [[e | r] w1]; simpl; [auto |].
  destruct (py_getitem0 r) as [e | first]; simpl; [auto |].
  destruct (py_get first "label" (PyStr "")) as [e | lbl]; simpl; [auto |].
  destruct (py_eq_str lbl "LABEL_1"); auto.
Qed.

Lemma scan_step_events g p w :
  provider_calls (events (scan_step g p) w) = []
  /\ scanner_calls (events (scan_step g p) w) =
       match security_scanner g with
       | Some _ => if truthy (code p) then [CallScanner (slice_to 512 (code p))] else []
       | None => []
       end.
Proof.
  unfold events, scan_step.
  destruct (security_scanner g) as [sc |]; [| split; reflexivity].
  destruct (truthy (code p)); [| split; reflexivity].
  unfold_m; simpl.
  destruct (scanner_call sc (slice_to 512 (code p)) w) as [[e | r] w1]; simpl;
    [split; reflexivity |].
  destruct (py_getitem0 r) as [e | first]; simpl; [split; reflexivity |].
  destruct (py_get first "label" (PyStr "")) as [e | lbl]; split; reflexivity.
Qed.

(** ** Step C on its own *)

Lemma dispatch_events g p prompt w :
  events (dispatch container_str g p prompt) w = selected_call g p prompt.
Proof.
  unfold events, dispatch, selected_call.
  destruct (String.eqb (model p) "groq").
  - destruct (groq_client g) as [c |]; [| reflexivity].
    unfold_m; simpl.
    destruct (chat_completions_create c _ _ w) as [[e | r] w1]; reflexivity.
  - destruct (gemini_client g) as [c |]; [| reflexivity].
    unfold_m; simpl.
    destruct (models_generate_content c _ _ w) as [[e | r] w1]; reflexivity.
Qed.

Lemma provider_calls_selected g p prompt :
  provider_calls (selected_call g p prompt) = selected_call g p prompt.
Proof.
  unfold selected_call.
  destruct (String.eqb (model p) "groq");
    [destruct (groq_client g) | destruct (gemini_client g)]; reflexivity.
Qed.

Lemma scanner_calls_selected g p prompt :
  scanner_calls (selected_call g p prompt) = [].
Proof.
  unfold selected_call.
  destruct (String.eqb (model p) "groq");
    [destruct (groq_client g) | destruct (gemini_client g)]; reflexivity.
Qed.

Lemma dispatch_absent g p prompt w :
  selected_present g p = false ->
  exists detail,
    dispatch container_str g p prompt (w, []) = (inl (HTTPException 503 detail), (w, []))
    /\ detail = (if String.eqb (model p) "groq" then "Groq client not available"
                 else "Gemini client not available").
Proof.
  unfold selected_present, dispatch. intro H.
  destruct (String.eqb (model p) "groq").
  - destruct (groq_client g); [discriminate |]. eexists; split; reflexivity.
  - destruct (gemini_client g); [discriminate |]. eexists; split; reflexivity.
Qed.

(** ** The handler as the composition of its steps *)

Lemma analyze_body_steps g p w :
  analyze_body container_str g p (w, []) =
    let w1 := world_after (scan_step g p) w in
    let d := dispatch container_str g p (build_prompt (verdict g p w) (code p)) in
    (match outcome d w1 with
     | inr t => inr {| security_score := verdict g p w; analysis := t |}
     | inl e => inl e
     end,
     (world_after d w1, (events (scan_step g p) w ++ events d w1)%list)).
Proof.
  unfold analyze_body, bind.
  rewrite (framed_scan_step g p w []), scan_step_outcome. simpl.
  rewrite framed_dispatch.
  destruct (outcome _ _); reflexivity.
Qed.

Lemma analyze_code_steps g p w :
  analyze_code container_str g p (w, []) =
    let w1 := world_after (scan_step g p) w in
    let d := dispatch container_str g p (build_prompt (verdict g p w) (code p)) in
    let evs := (events (scan_step g p) w ++ events d w1)%list in
    match outcome d w1 with
    | inr t =>
        (inr {| security_score := verdict g p w; analysis := t |}, (world_after d w1, evs))
    | inl (HTTPException s detail) =>
        (inl (HTTPException s detail), (world_after d w1, evs))
    | inl (Exception c m) =>
        (inr {| security_score := "error"; analysis := PyStr ("Backend Error: " ++ m) |},
         (world_after d w1,
          (evs ++ [Log ERROR "Error during analysis: %s" (Some (Exception c m))])%list))
    end.
Proof.
  unfold analyze_code, try_except. rewrite analyze_body_steps. simpl.
  destruct (outcome _ _) as [[s d | c m] | t]; reflexivity.
Qed.

Lemma filter_app_nil_l {A : Type} (f : A -> bool) (l1 l2 : list A) :
  filter f l1 = [] -> filter f (l1 ++ l2) = filter f l2.
Proof. intro H. now rewrite filter_app, H. Qed.

Lemma analyze_code_provider_calls g p w :
  provider_calls (events (analyze_code container_str g p) w) =
    selected_call g p (build_prompt (verdict g p w) (code p)).
Proof.
  unfold events at 1. rewrite analyze_code_steps. simpl.
  destruct (scan_step_events g p w) as [Hp _].
  unfold provider_calls in *.
  destruct (outcome _ _) as [[s d | c m] | t]; simpl;
    rewrite ?filter_app, Hp, dispatch_events; simpl; rewrite ?app_nil_r;
    apply provider_calls_selected.
Qed.

Lemma analyze_code_scanner_calls g p w :
  scanner_calls (events (analyze_code container_str g p) w) =
    scanner_calls (events (scan_step g p) w).
Proof.
  unfold events at 1. rewrite analyze_code_steps. simpl.
  unfold scanner_calls.
  destruct (outcome _ _) as [[s d | c m] | t]; simpl;
    rewrite ?filter_app, dispatch_events;
    fold (scanner_calls (selected_call g p (build_prompt (verdict g p w) (code p))));
    rewrite scanner_calls_selected; simpl; rewrite ?app_nil_r; reflexivity.
Qed.

(** ** Routing *)

Lemma filter_narrow {A : Type} (f h : A -> bool) (l : list A) :
  (forall x, f x = true -> h x = true) ->
  filter f (filter h l) = filter f l.
Proof.
  intro Hsub. induction l as [| x l IH]; simpl; [reflexivity |].
  destruct (h x) eqn:Hh; simpl.
  - now rewrite IH.
  - destruct (f x) eqn:Hf; [| exact IH].
    apply Hsub in Hf. congruence.
Qed.

Lemma swap_unselected_same g p gem grq s :
  analyze_code container_str (swap_unselected g p gem grq) p s =
  analyze_code container_str g p s.
Proof.
  unfold analyze_code, analyze_body, dispatch, scan_step, swap_unselected.
  destruct (String.eqb (model p) "groq"); reflexivity.
Qed.

Lemma dispatch_groq_runs g p prompt w c :
  String.eqb (model p) "groq" = true ->
  groq_client g = Some c ->
  dispatch container_str g p prompt (w, []) =
    (match fst (chat_completions_create c (groq_messages prompt)
                  "llama-3.3-70b-versatile" w) with
     | inl e => inl e
     | inr chat_completion => groq_text chat_completion
     end,
     (snd (chat_completions_create c (groq_messages prompt)
             "llama-3.3-70b-versatile" w),
      [CallGroq (groq_messages prompt) "llama-3.3-70b-versatile"])).
Proof.
  intros Hm Hc. unfold dispatch. rewrite Hm, Hc. unfold_m; simpl.
  destruct (chat_completions_create c _ _ w) as [[e | r] w2]; reflexivity.
Qed.

Lemma dispatch_gemini_runs g p prompt w c :
  String.eqb (model p) "groq" = false ->
  gemini_client g = Some c ->
  dispatch container_str g p prompt (w, []) =
    (match fst (models_generate_content c "gemini-2.0-flash" prompt w) with
     | inl e => inl e
     | inr response => inr (gemini_text container_str response)
     end,
     (snd (models_generate_content c "gemini-2.0-flash" prompt w),
      [CallGemini "gemini-2.0-flash" prompt])).
Proof.
  intros Hm Hc. unfold dispatch. rewrite Hm, Hc. unfold_m; simpl.
  destruct (models_generate_content c _ _ w) as [[e | r] w2]; reflexivity.
Qed.

Lemma analyze_code_answer g p w :
  outcome (analyze_code container_str g p) w =
    answer_of (verdict g p w)
      (outcome (dispatch container_str g p (build_prompt (verdict g p w) (code p)))
               (world_after (scan_step g p) w))
  /\ world_after (analyze_code container_str g p) w =
       world_after (dispatch container_str g p (build_prompt (verdict g p w) (code p)))
                   (world_after (scan_step g p) w).
Proof.
  split.
  - unfold outcome at 1. rewrite analyze_code_steps. simpl.
    destruct (outcome _ _) as [[s d | c m] | t]; reflexivity.
  - unfold world_after at 1. rewrite analyze_code_steps. simpl.
    destruct (outcome _ _) as [[s d | c m] | t]; reflexivity.
Qed.

(** C1: a request with [model == "groq"] is dispatched to the Groq
    handle and never to the Gemini one, and a request with any other
    [model], the default ["gemini"] included, is dispatched to the Gemini
    handle and never to the Groq one.  Dispatched means: the selected
    client's method is applied to the prompt (under the fixed model
    name) in the world step A left; the world it leaves is the world the
    request leaves, and the response is made from what it returned or
    raised and from nothing else.  The trace holds that one call (none
    when the selected handle is absent) and no call of the other handle,
    and the handle that was not selected can be swapped for any other
    without changing the outcome, the trace or the world: there is no
    fallback from one provider to the other. *)
Theorem analyze_routes_by_model g p w :
  let prompt := build_prompt (verdict g p w) (code p) in
  let evs := events (analyze_code container_str g p) w in
  let w1 := world_after (scan_step g p) w in
  provider_calls evs =
    (if String.eqb (model p) "groq" then
       match groq_client g with
       | Some _ => [CallGroq (groq_messages prompt) "llama-3.3-70b-versatile"]
       | None => []
       end
     else
       match gemini_client g with
       | Some _ => [CallGemini "gemini-2.0-flash" prompt]
       | None => []
       end)
  /\ filter (if String.eqb (model p) "groq" then is_gemini_call else is_groq_call) evs = []
  /\ (forall gem grq s,
        analyze_code container_str (swap_unselected g p gem grq) p s =
        analyze_code container_str g p s)
  /\ (forall c, String.eqb (model (mk_payload c None)) "groq" = false)
  /\ (forall c,
        String.eqb (model p) "groq" = true -> groq_client g = Some c ->
        world_after (analyze_code container_str g p) w =
          snd (chat_completions_create c (groq_messages prompt)
                 "llama-3.3-70b-versatile" w1)
        /\ outcome (analyze_code container_str g p) w =
             answer_of (verdict g p w)
               match fst (chat_completions_create c (groq_messages prompt)
                            "llama-3.3-70b-versatile" w1) with
               | inl e => inl e
               | inr chat_completion => groq_text chat_completion
               end)
  /\ (forall c,
        String.eqb (model p) "groq" = false -> gemini_client g = Some c ->
        world_after (analyze_code container_str g p) w =
          snd (models_generate_content c "gemini-2.0-flash" prompt w1)
        /\ outcome (analyze_code container_str g p) w =
             answer_of (verdict g p w)
               match fst (models_generate_content c "gemini-2.0-flash" prompt w1) with
               | inl e => inl e
               | inr response => inr (gemini_text container_str response)
               end).
Proof.
  intros prompt evs w1.
  assert (Hcalls : provider_calls evs = selected_call g p prompt)
    by apply analyze_code_provider_calls.
  destruct (analyze_code_answer g p w) as [Hout Hworld]. fold prompt w1 in Hout, Hworld.
  split; [exact Hcalls |]. split; [| split; [| split; [| split]]].
  - assert (Hn : forall f, (forall x, f x = true -> is_provider_call x = true) ->
                   filter f evs = filter f (selected_call g p prompt)).
    { intros f Hf. rewrite <- Hcalls. unfold provider_calls.
      symmetry. now apply filter_narrow. }
    unfold selected_call in Hn.
    destruct (String.eqb (model p) "groq").
    + rewrite Hn by (intros [] H; simpl in *; congruence).
      destruct (groq_client g); reflexivity.
    + rewrite Hn by (intros [] H; simpl in *; congruence).
      destruct (gemini_client g); reflexivity.
  - intros. apply swap_unselected_same.
  - reflexivity.
  - intros c Hm Hc. rewrite Hout, Hworld.
    unfold outcome, world_after. rewrite (dispatch_groq_runs g p prompt w1 c Hm Hc).
    split; reflexivity.
  - intros c Hm Hc. rewrite Hout, Hworld.
    unfold outcome, world_after. rewrite (dispatch_gemini_runs g p prompt w1 c Hm Hc).
    split; reflexivity.
Qed.

(** ** The missing provider *)

(** C2: when the handle that [payload.model] selects is [None], the
    handler raises [HTTPException] with status 503, which passes the
    outer [try] as it is (no error-shaped body is returned in its place),
    no provider is called, and no response dict exists. *)
Theorem absent_provider_is_503 g p w :
  selected_present g p = false ->
  outcome (analyze_code container_str g p) w =
    inl (HTTPException 503
           (if String.eqb (model p) "groq" then "Groq client not available"
            else "Gemini client not available"))
  /\ http_status (outcome (analyze_code container_str g p) w) = 503%Z
  /\ provider_calls (events (analyze_code container_str g p) w) = []
  /\ (forall body, outcome (analyze_code container_str g p) w <> inr body).
Proof.
  intro Habs.
  assert (Hout : outcome (analyze_code container_str g p) w =
    inl (HTTPException 503
           (if String.eqb (model p) "groq" then "Groq client not available"
            else "Gemini client not available"))).
  { unfold outcome at 1. rewrite analyze_code_steps. simpl.
    destruct (dispatch_absent g p (build_prompt (verdict g p w) (code p))
                (world_after (scan_step g p) w) Habs) as [detail [Hd Hdetail]].
    unfold outcome. rewrite Hd. simpl. now rewrite Hdetail. }
  split; [exact Hout |]. split; [now rewrite Hout |]. split.
  - rewrite analyze_code_provider_calls. unfold selected_call.
    unfold selected_present in Habs.
    destruct (String.eqb (model p) "groq");
      [destruct (groq_client g) | destruct (gemini_client g)];
      simpl in Habs; congruence.
  - intros body H. rewrite Hout in H. discriminate.
Qed.

(** ** Unexpected failures *)

(** C3, as the code has it: an exception other than an [HTTPException]
    raised in the body of the outer [try] (prompt construction, provider
    call, extraction of the text, shaping of the response) is caught,
    logged, and answered with status 200 and the body
    [{security_score: "error", analysis: "Backend Error: " + str(e)}],
    whose text is not empty; no such exception ever leaves the handler.
    An exception of the scanner does not reach the outer [try]: step A
    always hands back a verdict.  An [HTTPException] raised by the
    provider call leaves the handler unchanged. *)
Theorem unexpected_failure_is_error_body g p w :
  let d := dispatch container_str g p (build_prompt (verdict g p w) (code p)) in
  let w1 := world_after (scan_step g p) w in
  (forall c m, outcome (analyze_code container_str g p) w <> inl (Exception c m))
  /\ (forall c m,
        outcome (analyze_body container_str g p) w = inl (Exception c m) ->
        outcome (analyze_code container_str g p) w =
          inr {| security_score := "error"; analysis := PyStr ("Backend Error: " ++ m) |}
        /\ http_status (outcome (analyze_code container_str g p) w) = 200%Z
        /\ "Backend Error: " ++ m <> ""
        /\ In (Log ERROR "Error during analysis: %s" (Some (Exception c m)))
              (events (analyze_code container_str g p) w))
  /\ (forall c m,
        outcome d w1 = inl (Exception c m) ->
        outcome (analyze_body container_str g p) w = inl (Exception c m))
  /\ (exists status, outcome (scan_step g p) w = inr status)
  /\ (forall s detail,
        outcome d w1 = inl (HTTPException s detail) ->
        outcome (analyze_code container_str g p) w = inl (HTTPException s detail)).
Proof.
  intros d w1.
  assert (Hbody : outcome (analyze_body container_str g p) w =
                  match outcome d w1 with
                  | inr t => inr {| security_score := verdict g p w; analysis := t |}
                  | inl e => inl e
                  end).
  { unfold outcome at 1. now rewrite analyze_body_steps. }
  split; [| split; [| split; [| split]]].
  - intros c m. unfold outcome at 1. rewrite analyze_code_steps. simpl.
    fold d w1. destruct (outcome d w1) as [[s dt | c' m'] | t]; simpl; discriminate.
  - intros c m Hraise. rewrite Hbody in Hraise.
    unfold outcome at 1 2, events. rewrite analyze_code_steps. simpl.
    fold d w1 in Hraise |- *.
    destruct (outcome d w1) as [[s dt | c' m'] | t]; try discriminate.
    injection Hraise as -> ->. simpl.
    repeat split; try discriminate.
    apply in_or_app. right. left. reflexivity.
  - intros c m Hd. now rewrite Hbody, Hd.
  - eexists. apply scan_step_outcome.
  - intros s detail Hd. unfold outcome at 1. rewrite analyze_code_steps. simpl.
    fold d w1. now rewrite Hd.
Qed.

(** ** Scoring *)

Lemma slice_to_length n s : String.length (slice_to n s) = Nat.min n (String.length s).
Proof.
  revert n. induction s as [| c s IH]; intros [| n]; simpl; try reflexivity.
  now rewrite IH.
Qed.

Lemma slice_to_prefix n s : exists rest, s = slice_to n s ++ rest.
Proof.
  revert n. induction s as [| c s IH]; intros n.
  - exists "". reflexivity.
  - destruct n as [| n]; simpl.
    + exists (String c s). reflexivity.
    + destruct (IH n) as [rest Hrest]. exists rest. now rewrite <- Hrest.
Qed.

Lemma truthy_nonempty s : s <> "" -> truthy s = true.
Proof. destruct s; [congruence | reflexivity]. Qed.

Lemma py_eq_str_spec v s : py_eq_str v s = true <-> v = PyStr s.
Proof.
  destruct v; simpl; try (split; [discriminate | discriminate]).
  rewrite String.eqb_eq. split; [now intros -> | now intros [= ->]].
Qed.

Lemma scan_step_success g p w sc r first lbl w1 :
  security_scanner g = Some sc ->
  code p <> "" ->
  scanner_call sc (slice_to 512 (code p)) w = (inr r, w1) ->
  py_getitem0 r = inr first ->
  py_get first "label" (PyStr "") = inr lbl ->
  scan_step g p (w, []) =
    (inr (if py_eq_str lbl "LABEL_1" then "insecure" else "secure"),
     (w1, [CallScanner (slice_to 512 (code p))])).
Proof.
  intros Hsc Hcode Hcall Hfirst Hlbl.
  unfold scan_step. rewrite Hsc, (truthy_nonempty _ Hcode).
  unfold_m; simpl. rewrite Hcall; simpl. rewrite Hfirst; simpl. now rewrite Hlbl.
Qed.

(** C4: with the scanner present, [code] not empty and the scanner
    answering with a result whose label is [lbl], the scanner is called
    once, on [code[:512]] (at most 512 characters, a prefix of [code]),
    the verdict is ["insecure"] exactly when [lbl] is ["LABEL_1"] and
    ["secure"] for every other label, and that verdict is the
    [security_score] of the response when the provider step succeeds. *)
Theorem scanner_verdict g p w sc r first lbl w1 :
  security_scanner g = Some sc ->
  code p <> "" ->
  scanner_call sc (slice_to 512 (code p)) w = (inr r, w1) ->
  py_getitem0 r = inr first ->
  py_get first "label" (PyStr "") = inr lbl ->
  scanner_calls (events (analyze_code container_str g p) w) =
    [CallScanner (slice_to 512 (code p))]
  /\ String.length (slice_to 512 (code p)) <= 512
  /\ (exists rest, code p = slice_to 512 (code p) ++ rest)
  /\ (verdict g p w = "insecure" <-> lbl = PyStr "LABEL_1")
  /\ (lbl <> PyStr "LABEL_1" -> verdict g p w = "secure")
  /\ (forall t,
        outcome (dispatch container_str g p (build_prompt (verdict g p w) (code p))) w1
          = inr t ->
        outcome (analyze_code container_str g p) w =
          inr {| security_score := verdict g p w; analysis := t |}).
Proof.
  intros Hsc Hcode Hcall Hfirst Hlbl.
  pose proof (scan_step_success g p w sc r first lbl w1 Hsc Hcode Hcall Hfirst Hlbl) as Hscan.
  assert (Hv : verdict g p w = if py_eq_str lbl "LABEL_1" then "insecure" else "secure").
  { unfold verdict, outcome. now rewrite Hscan. }
  assert (Hw : world_after (scan_step g p) w = w1).
  { unfold world_after. now rewrite Hscan. }
  split; [| split; [| split; [| split; [| split]]]].
  - rewrite analyze_code_scanner_calls. unfold events. now rewrite Hscan.
  - rewrite slice_to_length. apply Nat.le_min_l.
  - apply slice_to_prefix.
  - rewrite Hv, <- py_eq_str_spec.
    destruct (py_eq_str lbl "LABEL_1"); split; congruence.
  - intro Hne. rewrite Hv.
    destruct (py_eq_str lbl "LABEL_1") eqn:E; [| reflexivity].
    apply py_eq_str_spec in E. contradiction.
  - intros t Ht. unfold outcome at 1. rewrite analyze_code_steps. simpl.
    rewrite Hw, Ht. reflexivity.
Qed.

(** C5: with the scanner absent, or [code] empty, or the scanner call
    throwing, step A hands back ["unknown"] and raises nothing; when the
    provider step then succeeds with text [t], the handler returns
    [{security_score: "unknown", analysis: t}] with status 200. *)
Theorem degraded_scoring_is_unknown g p w :
  (security_scanner g = None
   \/ code p = ""
   \/ exists sc e w1,
        security_scanner g = Some sc
        /\ scanner_call sc (slice_to 512 (code p)) w = (inl e, w1)) ->
  outcome (scan_step g p) w = inr "unknown"
  /\ verdict g p w = "unknown"
  /\ (forall t,
        outcome (dispatch container_str g p (build_prompt "unknown" (code p)))
                (world_after (scan_step g p) w) = inr t ->
        outcome (analyze_code container_str g p) w =
          inr {| security_score := "unknown"; analysis := t |}
        /\ http_status (outcome (analyze_code container_str g p) w) = 200%Z).
Proof.
  intro Hdeg.
  assert (Hout : outcome (scan_step g p) w = inr "unknown").
  { unfold outcome, scan_step.
    destruct Hdeg as [Hnone | [Hempty | [sc [e [w1 [Hsc Hcall]]]]]].
    - now rewrite Hnone.
    - rewrite Hempty. simpl. destruct (security_scanner g); reflexivity.
    - rewrite Hsc. destruct (truthy (code p)); [| reflexivity].
      unfold_m; simpl. now rewrite Hcall. }
  assert (Hv : verdict g p w = "unknown").
  { unfold verdict. now rewrite Hout. }
  split; [exact Hout |]. split; [exact Hv |].
  intros t Ht.
  assert (Hres : outcome (analyze_code container_str g p) w =
                 inr {| security_score := "unknown"; analysis := t |}).
  { unfold outcome at 1. rewrite analyze_code_steps. simpl.
    rewrite Hv, Ht. reflexivity. }
  split; [exact Hres | now rewrite Hres].
Qed.

(** A scanner result from which no label can be read (an empty list, an
    element that is not a dict) is handled the same way: the extraction
    of the label is inside the inner [try]. *)
Lemma malformed_scanner_result_is_unknown g p w sc r w1 e :
  security_scanner g = Some sc ->
  scanner_call sc (slice_to 512 (code p)) w = (inr r, w1) ->
  (py_getitem0 r = inl e
   \/ exists first, py_getitem0 r = inr first /\ py_get first "label" (PyStr "") = inl e) ->
  verdict g p w = "unknown".
Proof.
  intros Hsc Hcall Hbad. unfold verdict, outcome, scan_step. rewrite Hsc.
  destruct (truthy (code p)); [| reflexivity].
  unfold_m; simpl. rewrite Hcall; simpl.
  destruct Hbad as [Hbad | [first [Hfirst Hbad]]].
  - now rewrite Hbad.
  - rewrite Hfirst; simpl. now rewrite Hbad.
Qed.

(** ** The text of the provider's answer *)

(** On the Gemini path a response without [text] is answered with
    [str(response)]. *)
Lemma gemini_text_fallback response e :
  py_getattr response "text" = inl e ->
  gemini_text container_str response = PyStr (py_str container_str response).
Proof.
  intro H. unfold gemini_text, py_getattr_default. now rewrite H.
Qed.

Lemma gemini_dispatch_never_fails_on_response g p prompt w c r w1 :
  String.eqb (model p) "groq" = false ->
  gemini_client g = Some c ->
  models_generate_content c "gemini-2.0-flash" prompt w = (inr r, w1) ->
  outcome (dispatch container_str g p prompt) w = inr (gemini_text container_str r).
Proof.
  intros Hm Hc Hcall. unfold outcome, dispatch. rewrite Hm, Hc.
  unfold_m; simpl. now rewrite Hcall.
Qed.

(** On the Groq path there is no such fallback: when the chain
    [choices[0].message.content] cannot be followed, its exception is
    the outcome of the step. *)
Lemma groq_dispatch_raises_without_text g p prompt w c r w1 e :
  String.eqb (model p) "groq" = true ->
  groq_client g = Some c ->
  chat_completions_create c (groq_messages prompt) "llama-3.3-70b-versatile" w = (inr r, w1) ->
  groq_text r = inl e ->
  outcome (dispatch container_str g p prompt) w = inl e.
Proof.
  intros Hm Hc Hcall Hbad. unfold outcome, dispatch. rewrite Hm, Hc.
  unfold_m; simpl. rewrite Hcall; simpl. exact Hbad.
Qed.

(** ** Startup *)

Lemma init_scanner_skipped im g s :
  init_scanner im g s = (inr g, (fst s, (snd s ++ [scanner_disabled_notice])%list)).
Proof. reflexivity. Qed.

Lemma framed_init_scanner im g : framed (init_scanner im g).
Proof. intros w tr. rewrite !init_scanner_skipped. reflexivity. Qed.

Lemma framed_init_gemini im g : framed (init_gemini im g).
Proof.
  unfold init_gemini.
  destruct (genai im); [| frame].
  destruct (getenv im "GEMINI_API_KEY") as [key |]; [| frame].
  destruct (truthy key); frame.
Qed.

Lemma framed_init_groq im g : framed (init_groq im g).
Proof.
  unfold init_groq.
  destruct (Groq im); [| frame].
  destruct (getenv im "GROQ_API_KEY") as [key |]; [| frame].
  destruct (truthy key); frame.
Qed.

Lemma framed_lifespan_startup im g : framed (lifespan_startup im g).
Proof.
  unfold lifespan_startup.
  apply framed_bind; [apply framed_init_scanner | intro g1].
  apply framed_bind; [apply framed_init_gemini | intro g2].
  apply framed_init_groq.
Qed.

Lemma truthy_false s : truthy s = false <-> s = "".
Proof. destruct s; simpl; split; congruence. Qed.

(** What [init_gemini] hands back and records, case by case. *)
Lemma init_gemini_spec im g w :
  exists c,
    outcome (init_gemini im g) w =
      inr {| security_scanner := security_scanner g;
             gemini_client := c;
             groq_client := groq_client g |}
    /\ (genai im = None ->
        c = gemini_client g
        /\ events (init_gemini im g) w =
             [Log WARNING "google-genai SDK not installed; Gemini client disabled" None])
    /\ (genai im <> None ->
        getenv im "GEMINI_API_KEY" = None \/ getenv im "GEMINI_API_KEY" = Some "" ->
        c = gemini_client g
        /\ events (init_gemini im g) w =
             [Log WARNING "GEMINI_API_KEY not set; Gemini client disabled" None])
    /\ (forall mk key e w1,
          genai im = Some mk -> getenv im "GEMINI_API_KEY" = Some key -> key <> "" ->
          mk key w = (inl e, w1) ->
          c = None
          /\ events (init_gemini im g) w =
               [NewGenaiClient key;
                Log ERROR "Failed to initialize Gemini client: %s" (Some e)])
    /\ (forall mk key client w1,
          genai im = Some mk -> getenv im "GEMINI_API_KEY" = Some key -> key <> "" ->
          mk key w = (inr client, w1) ->
          c = Some client
          /\ events (init_gemini im g) w = [NewGenaiClient key]).
Proof.
  destruct g as [sc gem grq]. unfold outcome, events, init_gemini. simpl.
  destruct (genai im) as [mk |].
  2:{ exists gem. repeat split; intros; try congruence; try discriminate. }
  destruct (getenv im "GEMINI_API_KEY") as [key |].
  2:{ exists gem. repeat split; intros; try congruence; try discriminate. }
  destruct (truthy key) eqn:Hkey.
  2:{ apply truthy_false in Hkey. subst key.
      exists gem. repeat split; intros; try congruence; try discriminate. }
  assert (Hne : key <> "") by (intros ->; discriminate).
  unfold_m; simpl.
  destruct (mk key w) as [[e | client] w1] eqn:Hcall; simpl.
  - exists None. split; [reflexivity |].
    split; [intros; discriminate |].
    split; [intros _ [H | H]; congruence |].
    split; intros mk' key' x w' [= <-] [= <-] _ Hc; rewrite Hcall in Hc;
      [injection Hc as <- _; split; reflexivity | discriminate].
  - exists (Some client). split; [reflexivity |].
    split; [intros; discriminate |].
    split; [intros _ [H | H]; congruence |].
    split; intros mk' key' x w' [= <-] [= <-] _ Hc; rewrite Hcall in Hc;
      [discriminate | injection Hc as <- _; split; reflexivity].
Qed.

(** The same for [init_groq]. *)
Lemma init_groq_spec im g w :
  exists c,
    outcome (init_groq im g) w =
      inr {| security_scanner := security_scanner g;
             gemini_client := gemini_client g;
             groq_client := c |}
    /\ (Groq im = None ->
        c = groq_client g
        /\ events (init_groq im g) w =
             [Log WARNING "groq SDK not installed; Groq client disabled" None])
    /\ (Groq im <> None ->
        getenv im "GROQ_API_KEY" = None \/ getenv im "GROQ_API_KEY" = Some "" ->
        c = groq_client g
        /\ events (init_groq im g) w =
             [Log WARNING "GROQ_API_KEY not set; Groq client disabled" None])
    /\ (forall mk key e w1,
          Groq im = Some mk -> getenv im "GROQ_API_KEY" = Some key -> key <> "" ->
          mk key w = (inl e, w1) ->
          c = None
          /\ events (init_groq im g) w =
               [NewGroq key; Log ERROR "Failed to initialize Groq client: %s" (Some e)])
    /\ (forall mk key client w1,
          Groq im = Some mk -> getenv im "GROQ_API_KEY" = Some key -> key <> "" ->
          mk key w = (inr client, w1) ->
          c = Some client
          /\ events (init_groq im g) w = [NewGroq key]).
Proof.
  destruct g as [sc gem grq]. unfold outcome, events, init_groq. simpl.
  destruct (Groq im) as [mk |].
  2:{ exists grq. repeat split; intros; try congruence; try discriminate. }
  destruct (getenv im "GROQ_API_KEY") as [key |].
  2:{ exists grq. repeat split; intros; try congruence; try discriminate. }
  destruct (truthy key) eqn:Hkey.
  2:{ apply truthy_false in Hkey. subst key.
      exists grq. repeat split; intros; try congruence; try discriminate. }
  assert (Hne : key <> "") by (intros ->; discriminate).
  unfold_m; simpl.
  destruct (mk key w) as [[e | client] w1] eqn:Hcall; simpl.
  - exists None. split; [reflexivity |].
    split; [intros; discriminate |].
    split; [intros _ [H | H]; congruence |].
    split; intros mk' key' x w' [= <-] [= <-] _ Hc; rewrite Hcall in Hc;
      [injection Hc as <- _; split; reflexivity | discriminate].
  - exists (Some client). split; [reflexivity |].
    split; [intros; discriminate |].
    split; [intros _ [H | H]; congruence |].
    split; intros mk' key' x w' [= <-] [= <-] _ Hc; rewrite Hcall in Hc;
      [discriminate | injection Hc as <- _; split; reflexivity].
Qed.

Lemma lifespan_startup_steps im g w :
  exists cg cq,
    let g2 := {| security_scanner := security_scanner g;
                 gemini_client := cg;
                 groq_client := groq_client g |} in
    let g3 := {| security_scanner := security_scanner g;
                 gemini_client := cg;
                 groq_client := cq |} in
    let wg := world_after (init_gemini im g) w in
    outcome (init_gemini im g) w = inr g2
    /\ outcome (init_groq im g2) wg = inr g3
    /\ lifespan_startup im g (w, []) =
         (inr g3,
          (world_after (init_groq im g2) wg,
           (scanner_disabled_notice :: events (init_gemini im g) w
              ++ events (init_groq im g2) wg)%list)).
Proof.
  destruct (init_gemini_spec im g w) as [cg [Hg _]].
  destruct (init_groq_spec im
              {| security_scanner := security_scanner g;
                 gemini_client := cg;
                 groq_client := groq_client g |}
              (world_after (init_gemini im g) w)) as [cq [Hq _]].
  simpl in Hq. exists cg, cq. simpl.
  split; [exact Hg |]. split; [exact Hq |].
  unfold lifespan_startup, bind.
  rewrite init_scanner_skipped. simpl.
  rewrite framed_init_gemini, Hg.
  rewrite framed_init_groq, Hq. simpl.
  reflexivity.
Qed.

Lemma lifespan_startup_total im g s :
  exists g1 s1,
    lifespan_startup im g s = (inr g1, s1)
    /\ security_scanner g1 = security_scanner g.
Proof.
  destruct s as [w tr]. rewrite framed_lifespan_startup.
  destruct (lifespan_startup_steps im g w) as [cg [cq [_ [_ H]]]].
  unfold outcome. rewrite H. simpl. eexists _, _. split; reflexivity.
Qed.

(** ** The process *)

Lemma step_after_startup im (p q : Process W) :
  step container_str im p q -> ph p <> Booting ->
  ph q <> Booting /\ globals q = globals p.
Proof.
  intros Hstep Hph. destruct Hstep; simpl in *; try congruence;
    (split; [discriminate | reflexivity]).
Qed.

Lemma reachable_globals im w (proc : Process W) g1 :
  outcome (lifespan_startup im initial_globals) w = inr g1 ->
  reachable container_str im w proc ->
  proc = boot w \/ (ph proc <> Booting /\ globals proc = g1).
Proof.
  intros Hstart Hreach. induction Hreach as [| p q Hreach IH Hstep].
  - left. reflexivity.
  - right. destruct IH as [-> | [Hph Hg]].
    + unfold boot in Hstep. inversion Hstep; subst. simpl.
      split; [discriminate |].
      unfold outcome in Hstart.
      match goal with H : lifespan_startup _ _ _ = _ |- _ => rewrite H in Hstart end.
      simpl in Hstart. congruence.
    + destruct (step_after_startup im p q Hstep Hph) as [Hq Hgq].
      split; [exact Hq | congruence].
Qed.

Lemma reachable_scanner_none im w (proc : Process W) :
  reachable container_str im w proc -> security_scanner (globals proc) = None.
Proof.
  intro Hreach.
  destruct (lifespan_startup_total im initial_globals (w, [])) as [g1 [s1 [Hrun Hsc]]].
  assert (Hout : outcome (lifespan_startup im initial_globals) w = inr g1)
    by (unfold outcome; now rewrite Hrun).
  destruct (reachable_globals im w proc g1 Hout Hreach) as [-> | [_ ->]];
    [reflexivity | exact Hsc].
Qed.

Lemma verdict_without_scanner g p w :
  security_scanner g = None -> verdict g p w = "unknown".
Proof. intro H. unfold verdict, outcome, scan_step. now rewrite H. Qed.

(** C7: [lifespan] skips the construction of the scanner whatever the
    imports gave ([if False and ...]), so [security_scanner] is [None] in
    every state the process reaches, also when [transformers.pipeline]
    could be imported; then no request ever calls the scanner, and a
    request either ends in an [HTTPException] or returns a body whose
    [security_score] is ["unknown"] or ["error"]. *)
Theorem scanner_always_disabled im w0 (proc : Process W) :
  reachable container_str im w0 proc ->
  security_scanner (globals proc) = None
  /\ (forall p w,
        scanner_calls (events (analyze_code container_str (globals proc) p) w) = []
        /\ match outcome (analyze_code container_str (globals proc) p) w with
           | inr body =>
               (security_score body = "unknown" \/ security_score body = "error")
               /\ security_score body <> "secure"
               /\ security_score body <> "insecure"
           | inl e => is_HTTPException e = true
           end).
Proof.
  intro Hreach. pose proof (reachable_scanner_none im w0 proc Hreach) as Hnone.
  split; [exact Hnone |]. intros p w. split.
  - rewrite analyze_code_scanner_calls.
    destruct (scan_step_events (globals proc) p w) as [_ ->]. now rewrite Hnone.
  - unfold outcome. rewrite analyze_code_steps. simpl.
    rewrite (verdict_without_scanner _ p w Hnone).
    destruct (outcome _ _) as [[s d | c m] | t]; simpl;
      try reflexivity; (split; [auto | split; discriminate]).
Qed.

(** C8: the startup part of [lifespan] always hands over a set of
    globals and never raises, whatever was imported, whatever the
    environment holds and whatever the constructors do.  A missing SDK,
    a missing or empty key and a throwing constructor each leave the
    handle [None] and a log record; with no SDK at all the globals stay
    as they were and startup still completes.  After startup no step of
    the process changes the globals. *)
Theorem startup_never_raises im w :
  (forall g s, exists g1 s1, lifespan_startup im g s = (inr g1, s1))
  /\ exists g1,
       let evs := events (lifespan_startup im initial_globals) w in
       let wg := world_after (init_gemini im initial_globals) w in
       outcome (lifespan_startup im initial_globals) w = inr g1
       /\ security_scanner g1 = None
       /\ (genai im = None ->
           gemini_client g1 = None
           /\ In (Log WARNING "google-genai SDK not installed; Gemini client disabled" None) evs)
       /\ (genai im <> None ->
           getenv im "GEMINI_API_KEY" = None \/ getenv im "GEMINI_API_KEY" = Some "" ->
           gemini_client g1 = None
           /\ In (Log WARNING "GEMINI_API_KEY not set; Gemini client disabled" None) evs)
       /\ (forall mk key e w1,
             genai im = Some mk -> getenv im "GEMINI_API_KEY" = Some key -> key <> "" ->
             mk key w = (inl e, w1) ->
             gemini_client g1 = None
             /\ In (Log ERROR "Failed to initialize Gemini client: %s" (Some e)) evs)
       /\ (Groq im = None ->
           groq_client g1 = None
           /\ In (Log WARNING "groq SDK not installed; Groq client disabled" None) evs)
       /\ (Groq im <> None ->
           getenv im "GROQ_API_KEY" = None \/ getenv im "GROQ_API_KEY" = Some "" ->
           groq_client g1 = None
           /\ In (Log WARNING "GROQ_API_KEY not set; Groq client disabled" None) evs)
       /\ (forall mk key e w1,
             Groq im = Some mk -> getenv im "GROQ_API_KEY" = Some key -> key <> "" ->
             mk key wg = (inl e, w1) ->
             groq_client g1 = None
             /\ In (Log ERROR "Failed to initialize Groq client: %s" (Some e)) evs)
       /\ (genai im = None -> Groq im = None -> g1 = initial_globals)
       /\ (forall proc,
             reachable container_str im w proc -> ph proc <> Booting ->
             globals proc = g1).
Proof.
  split.
  { intros g s. destruct (lifespan_startup_total im g s) as [g1 [s1 [H _]]]. eauto. }
  destruct (lifespan_startup_steps im initial_globals w) as [cg [cq [Hg [Hq Hrun]]]].
  simpl in Hg, Hq, Hrun.
  destruct (init_gemini_spec im initial_globals w)
    as [cg' [Hg' [Gsdk [Gkey [Gthrow _]]]]].
  simpl in Hg'. rewrite Hg in Hg'. injection Hg' as <-.
  destruct (init_groq_spec im
              {| security_scanner := None; gemini_client := cg; groq_client := None |}
              (world_after (init_gemini im initial_globals) w))
    as [cq' [Hq' [Qsdk [Qkey [Qthrow _]]]]].
  simpl in Hq', Qsdk, Qkey. rewrite Hq in Hq'. injection Hq' as <-.
  exists {| security_scanner := None; gemini_client := cg; groq_client := cq |}.
  unfold outcome, events. rewrite Hrun. simpl.
  split; [reflexivity |]. split; [reflexivity |].
  split; [| split; [| split; [| split; [| split; [| split; [| split]]]]]].
  - intro H. destruct (Gsdk H) as [-> ->]. split; [reflexivity |]. simpl; auto.
  - intros H1 H2. destruct (Gkey H1 H2) as [-> ->]. split; [reflexivity |]. simpl; auto.
  - intros mk key e w1 H1 H2 H3 H4.
    destruct (Gthrow mk key e w1 H1 H2 H3 H4) as [-> ->].
    split; [reflexivity |]. simpl; auto.
  - intro H. destruct (Qsdk H) as [-> ->]. split; [reflexivity |].
    right. apply in_or_app. right. simpl; auto.
  - intros H1 H2. destruct (Qkey H1 H2) as [-> ->]. split; [reflexivity |].
    right. apply in_or_app. right. simpl; auto.
  - intros mk key e w1 H1 H2 H3 H4.
    destruct (Qthrow mk key e w1 H1 H2 H3 H4) as [-> ->].
    split; [reflexivity |]. right. apply in_or_app. right. simpl; auto.
  - intros H1 H2. destruct (Gsdk H1) as [-> _]. destruct (Qsdk H2) as [-> _]. reflexivity.
  - intros proc Hreach Hph.
    assert (Hout : outcome (lifespan_startup im initial_globals) w =
                   inr {| security_scanner := None; gemini_client := cg;
                          groq_client := cq |})
      by (unfold outcome; now rewrite Hrun).
    destruct (reachable_globals im w proc _ Hout Hreach) as [-> | [_ H]];
      [simpl in Hph; congruence | exact H].
Qed.

(** ** Determinism *)

Lemma scan_step_alike g p w w' :
  deterministic_handles g ->
  outcome (scan_step g p) w = outcome (scan_step g p) w'
  /\ events (scan_step g p) w = events (scan_step g p) w'.
Proof.
  intros [Hsc _]. unfold outcome, events, scan_step.
  destruct (security_scanner g) as [sc |] eqn:E; [| split; reflexivity].
  destruct (truthy (code p)); [| split; reflexivity].
  specialize (Hsc sc (slice_to 512 (code p)) eq_refl w w').
  unfold_m; simpl.
  destruct (scanner_call sc (slice_to 512 (code p)) w) as [r1 w1].
  destruct (scanner_call sc (slice_to 512 (code p)) w') as [r2 w2].
  simpl in Hsc. subst r2.
  destruct r1 as [e | r]; simpl; [split; reflexivity |].
  destruct (py_getitem0 r) as [e | first]; simpl; [split; reflexivity |].
  destruct (py_get first "label" (PyStr "")) as [e | lbl]; split; reflexivity.
Qed.

Lemma dispatch_alike g p prompt w w' :
  deterministic_handles g ->
  outcome (dispatch container_str g p prompt) w =
  outcome (dispatch container_str g p prompt) w'.
Proof.
  intros [_ [Hgem Hgrq]]. unfold outcome, dispatch.
  destruct (String.eqb (model p) "groq").
  - destruct (groq_client g) as [c |] eqn:E; [| reflexivity].
    specialize (Hgrq c (groq_messages prompt) "llama-3.3-70b-versatile" eq_refl w w').
    unfold_m; simpl.
    destruct (chat_completions_create c _ _ w) as [r1 w1].
    destruct (chat_completions_create c _ _ w') as [r2 w2].
    simpl in Hgrq. subst r2. destruct r1; reflexivity.
  - destruct (gemini_client g) as [c |] eqn:E; [| reflexivity].
    specialize (Hgem c "gemini-2.0-flash" prompt eq_refl w w').
    unfold_m; simpl.
    destruct (models_generate_content c _ _ w) as [r1 w1].
    destruct (models_generate_content c _ _ w') as [r2 w2].
    simpl in Hgem. subst r2. destruct r1; reflexivity.
Qed.

(** C9: with handles whose answers do not depend on the state of the
    world, the handler's response depends on the globals and the payload
    only: run in any two states of the world (the one a first request
    left behind, say) the same [code] and [model] give the same outcome,
    hence the same [analysis], and the same trace. *)
Theorem analyze_is_deterministic g p w w' :
  deterministic_handles g ->
  outcome (analyze_code container_str g p) w =
  outcome (analyze_code container_str g p) w'
  /\ events (analyze_code container_str g p) w =
     events (analyze_code container_str g p) w'.
Proof.
  intro Hdet.
  destruct (scan_step_alike g p w w' Hdet) as [Hso Hse].
  assert (Hv : verdict g p w = verdict g p w') by (unfold verdict; now rewrite Hso).
  unfold outcome at 1 2, events at 1 2. rewrite !analyze_code_steps. simpl.
  rewrite !dispatch_events, Hse, Hv.
  rewrite (dispatch_alike g p (build_prompt (verdict g p w') (code p))
             (world_after (scan_step g p) w) (world_after (scan_step g p) w') Hdet).
  destruct (outcome (dispatch container_str g p (build_prompt (verdict g p w') (code p)))
              (world_after (scan_step g p) w')) as [[s d | c m] | t];
    split; reflexivity.
Qed.

(** ** The prompt *)

Lemma str_app_assoc (a b c : string) : (a ++ b) ++ c = a ++ b ++ c.
Proof. induction a as [| x a IH]; simpl; [reflexivity | now rewrite IH]. Qed.

Lemma build_prompt_shape status c :
  build_prompt status c = prompt_head status ++ c ++ prompt_tail.
Proof.
  unfold build_prompt, prompt_head, prompt_tail, indent, nl. simpl.
  rewrite !str_app_assoc. reflexivity.
Qed.

Lemma build_prompt_verdict status c :
  occurs_in status (build_prompt status c).
Proof.
  exists (nl ++ indent ++ "Review this code which the scanner marked as ").
  eexists. unfold build_prompt. rewrite !str_app_assoc. reflexivity.
Qed.

Lemma build_prompt_instruction status c :
  occurs_in instruction (build_prompt status c).
Proof.
  exists (nl ++ indent ++ "Review this code which the scanner marked as " ++ status
            ++ "." ++ nl ++ indent).
  eexists. unfold build_prompt, instruction. rewrite !str_app_assoc. reflexivity.
Qed.

Lemma verdict_ignores_model g c m1 m2 w :
  verdict g {| code := c; model := m1 |} w = verdict g {| code := c; model := m2 |} w.
Proof. reflexivity. Qed.

(** C10: the handler builds one prompt, [build_prompt] of the verdict of
    step A and of [payload.code]; [code] sits in it as it is, between a
    head and a tail that do not depend on it, the verdict and the
    instruction to report bugs and then give the optimized version occur
    in it, it is what the provider call carries whichever provider is
    selected, and there is at most one such call (exactly one when the
    selected handle is present). *)
Theorem one_prompt_for_both_providers g p w :
  let prompt := build_prompt (verdict g p w) (code p) in
  let calls := provider_calls (events (analyze_code container_str g p) w) in
  (forall e, In e calls -> prompt_sent e = Some prompt)
  /\ List.length calls = (if selected_present g p then 1 else 0)
  /\ prompt = prompt_head (verdict g p w) ++ code p ++ prompt_tail
  /\ occurs_in (code p) prompt
  /\ occurs_in (verdict g p w) prompt
  /\ occurs_in instruction prompt
  /\ (forall m',
        build_prompt (verdict g {| code := code p; model := m' |} w) (code p) = prompt).
Proof.
  intros prompt calls.
  assert (Hcalls : calls = selected_call g p prompt)
    by apply analyze_code_provider_calls.
  split; [| split; [| split; [| split; [| split; [| split]]]]].
  - rewrite Hcalls. unfold selected_call. intros e.
    destruct (String.eqb (model p) "groq");
      [destruct (groq_client g) | destruct (gemini_client g)]; simpl;
      intro H; try contradiction;
      (destruct H as [<- | H]; [reflexivity | contradiction]).
  - rewrite Hcalls. unfold selected_call, selected_present.
    destruct (String.eqb (model p) "groq");
      [destruct (groq_client g) | destruct (gemini_client g)]; reflexivity.
  - apply build_prompt_shape.
  - exists (prompt_head (verdict g p w)), prompt_tail. apply build_prompt_shape.
  - apply build_prompt_verdict.
  - apply build_prompt_instruction.
  - intro m'. destruct p as [c m]. reflexivity.
Qed.

End Properties.

(** * The properties at work on the stand-ins *)

Lemma all_up_deterministic : deterministic_handles all_up.
Proof.
  split; [| split].
  - intros sc text H. injection H as <-. intros w w'. reflexivity.
  - intros c m prompt H. injection H as <-. intros w w'. reflexivity.
  - intros c msgs m H. injection H as <-. intros w w'. reflexivity.
Qed.

Lemma sample_served_reachable :
  reachable plain_str sample_imports 0 (sample_served sample_imports).
Proof.
  eapply reach_step; [apply reach_boot |].
  apply step_startup. reflexivity.
Defined.

(** [POST /analyze {"code": "x=1", "model": "groq"}] with the Groq
    handle absent: 503 and no analysis. *)
Lemma absent_groq_scenario :
  selected_present gemini_only {| code := "x=1"; model := "groq" |} = false
  /\ outcome (analyze_code plain_str gemini_only {| code := "x=1"; model := "groq" |}) 0
       = inl (HTTPException 503 "Groq client not available").
Proof.
  split; [reflexivity |].
  exact (proj1 (absent_provider_is_503 nat plain_str gemini_only
                  {| code := "x=1"; model := "groq" |} 0 eq_refl)).
Defined.

(** C3 does not hold for the scoring step: here the scanner raises
    [RuntimeError], which is not the service-unavailable condition, and
    the response is the ordinary one with ["unknown"] and the provider's
    text, not the error body. *)
Lemma scanner_exception_is_not_an_error_body :
  fst (scanner_call failing_scanner (slice_to 512 "x=1") 0)
    = inl (Exception "RuntimeError" "scanner down")
  /\ outcome (analyze_code plain_str scanner_down {| code := "x=1"; model := "gemini" |}) 0
       = inr {| security_score := "unknown"; analysis := PyStr "OK" |}
  /\ ~ (exists text,
          outcome (analyze_code plain_str scanner_down {| code := "x=1"; model := "gemini" |}) 0
            = inr {| security_score := "error"; analysis := PyStr text |}).
Proof.
  split; [reflexivity |]. split; [reflexivity |].
  intros [text H]. vm_compute in H. discriminate.
Qed.

(** A provider that throws does give the error body. *)
Lemma failing_provider_scenario :
  outcome (analyze_code plain_str
             {| security_scanner := None;
                gemini_client := Some failing_gemini;
                groq_client := None |}
             {| code := "x=1"; model := "gemini" |}) 0
    = inr {| security_score := "error";
             analysis := PyStr "Backend Error: network unreachable" |}.
Proof. reflexivity. Qed.

Lemma insecure_label_scenario :
  outcome (analyze_code plain_str all_up {| code := "x=1"; model := "gemini" |}) 0
    = inr {| security_score := "insecure"; analysis := PyStr "OK" |}
  /\ scanner_calls (events (analyze_code plain_str all_up
                              {| code := "x=1"; model := "gemini" |}) 0)
       = [CallScanner "x=1"].
Proof.
  pose proof (scanner_verdict nat plain_str all_up {| code := "x=1"; model := "gemini" |} 0
                (stub_scanner "LABEL_1")
                (PyList [PyDict [("label", PyStr "LABEL_1")]])
                (PyDict [("label", PyStr "LABEL_1")])
                (PyStr "LABEL_1") 1
                eq_refl ltac:(discriminate) eq_refl eq_refl eq_refl)
    as [Hcalls [_ [_ [_ [_ Hresp]]]]].
  split; [| exact Hcalls].
  exact (Hresp (PyStr "OK") eq_refl).
Defined.

(** [POST /analyze {"code": "", "model": "gemini"}] with the Gemini
    handle present and answering ["OK"]: 200 and
    [{"security_score": "unknown", "analysis": "OK"}]. *)
Lemma empty_code_scenario :
  outcome (analyze_code plain_str all_up {| code := ""; model := "gemini" |}) 0
    = inr {| security_score := "unknown"; analysis := PyStr "OK" |}
  /\ http_status (outcome (analyze_code plain_str all_up
                             {| code := ""; model := "gemini" |}) 0) = 200%Z.
Proof.
  exact (proj2 (proj2 (degraded_scoring_is_unknown nat plain_str all_up
                         {| code := ""; model := "gemini" |} 0
                         (or_intror (or_introl eq_refl))))
           (PyStr "OK") eq_refl).
Defined.

(** C6 on the Groq path: the completion's message has no [content], and
    the handler answers with the error body instead of
    [str(chat_completion)]; the Gemini path, given a response without
    [text], does answer with [str(response)]. *)
Theorem groq_answer_without_text_is_an_error :
  groq_text groq_bare_response
    = inl (Exception "AttributeError"
             "'ChatCompletionMessage' object has no attribute 'content'")
  /\ outcome (analyze_code plain_str bare_answers {| code := "x=1"; model := "groq" |}) 0
       = inr {| security_score := "error";
                analysis := PyStr "Backend Error: 'ChatCompletionMessage' object has no attribute 'content'" |}
  /\ outcome (analyze_code plain_str bare_answers {| code := "x=1"; model := "groq" |}) 0
       <> inr {| security_score := "insecure";
                 analysis := PyStr (py_str plain_str groq_bare_response) |}
  /\ outcome (analyze_code plain_str bare_answers {| code := "x=1"; model := "gemini" |}) 0
       = inr {| security_score := "insecure";
                analysis := PyStr (py_str plain_str gemini_bare_response) |}.
Proof.
  split; [reflexivity |]. split; [reflexivity |]. split; [| reflexivity].
  vm_compute. discriminate.
Qed.

(** Startup with nothing importable and no key: it completes and every
    handle stays [None]. *)
Lemma bare_startup :
  outcome (lifespan_startup bare_imports initial_globals) 0 = inr initial_globals.
Proof. reflexivity. Qed.

(** Startup with a Groq constructor that throws: it completes, Gemini
    is up and Groq is absent. *)
Lemma throwing_constructor_startup :
  ph (sample_served sample_imports) = Serving
  /\ is_some (gemini_client (globals (sample_served sample_imports))) = true
  /\ groq_client (globals (sample_served sample_imports)) = None.
Proof. repeat split. Qed.

(** The scanner stays off although [transformers.pipeline] is there. *)
Lemma importable_scanner_stays_off :
  pipeline sample_imports <> None
  /\ security_scanner (globals (sample_served sample_imports)) = None.
Proof.
  split; [discriminate |].
  exact (proj1 (scanner_always_disabled nat plain_str sample_imports 0
                  (sample_served sample_imports) sample_served_reachable)).
Defined.

(** The same request twice, the second in the world the first left. *)
Lemma same_request_twice :
  outcome (analyze_code plain_str all_up {| code := "x=1"; model := "groq" |}) 0
  = outcome (analyze_code plain_str all_up {| code := "x=1"; model := "groq" |})
      (world_after (analyze_code plain_str all_up {| code := "x=1"; model := "groq" |}) 0).
Proof.
  exact (proj1 (analyze_is_deterministic nat plain_str all_up
                  {| code := "x=1"; model := "groq" |} 0 _ all_up_deterministic)).
Defined.

(** * Further properties of the handler and of startup *)

Section MoreProperties.

Variable W : Type.
Variable container_str : pyval -> string.

Implicit Types (g : Globals W) (p : CodePayload) (w : W) (tr : list event).

Ltac unfold_m :=
  unfold analyze_code, analyze_body, dispatch, scan_step, try_except, bind,
    call, lift, ret, raise, logger_exception, logger_warning, logger_info, emit in *.

(** ** What a request does besides answering *)

(** X1: when the handle selected by [payload.model] is [None] the
    request still runs step A in full, and nothing else: its trace and
    its effect on the world are those of step A, so a present scanner is
    called on [code[:512]] before the 503 is raised, and the 503 itself
    leaves no log record; with no scanner either, the request leaves the
    state exactly as it found it. *)
Theorem absent_provider_runs_scoring_only g p w :
  selected_present g p = false ->
  events (analyze_code container_str g p) w = events (scan_step g p) w
  /\ world_after (analyze_code container_str g p) w = world_after (scan_step g p) w
  /\ (security_scanner g <> None -> code p <> "" ->
      scanner_calls (events (analyze_code container_str g p) w) =
        [CallScanner (slice_to 512 (code p))])
  /\ (security_scanner g = None ->
      forall tr, snd (analyze_code container_str g p (w, tr)) = (w, tr)).
Proof.
  intro Habs.
  destruct (dispatch_absent W container_str g p
              (build_prompt (verdict g p w) (code p))
              (world_after (scan_step g p) w) Habs) as [detail [Hd _]].
  set (d := dispatch container_str g p (build_prompt (verdict g p w) (code p))) in *.
  set (w1 := world_after (scan_step g p) w) in *.
  assert (Ho : outcome d w1 = inl (HTTPException 503 detail))
    by (unfold outcome; now rewrite Hd).
  assert (He : events d w1 = []) by (unfold events; now rewrite Hd).
  assert (Hw : world_after d w1 = w1) by (unfold world_after; now rewrite Hd).
  split; [| split; [| split]].
  - unfold events at 1. rewrite analyze_code_steps. simpl. fold d w1.
    rewrite Ho, He. simpl. apply app_nil_r.
  - unfold world_after at 1. rewrite analyze_code_steps. simpl. fold d w1.
    rewrite Ho, Hw. reflexivity.
  - intros Hsc Hcode. rewrite analyze_code_scanner_calls.
    destruct (scan_step_events W g p w) as [_ ->].
    destruct (security_scanner g); [| congruence].
    now rewrite (truthy_nonempty _ Hcode).
  - intros Hnone tr. unfold selected_present in Habs.
    unfold analyze_code, analyze_body, scan_step, dispatch, try_except, bind, ret, raise.
    rewrite Hnone.
    destruct (String.eqb (model p) "groq");
      [destruct (groq_client g) | destruct (gemini_client g)];
      simpl in Habs; try discriminate; reflexivity.
Qed.

(** X2: the trace of a request is the trace of step A, then the one
    call of the selected provider (if its handle is there), then one
    ERROR record when, and only when, the body of the outer [try] ended in
    an exception that is not an [HTTPException]. *)
Theorem analyze_trace_order g p w :
  let prompt := build_prompt (verdict g p w) (code p) in
  events (analyze_code container_str g p) w =
    (events (scan_step g p) w
       ++ selected_call g p prompt
       ++ match outcome (analyze_body container_str g p) w with
          | inl (Exception c m) =>
              [Log ERROR "Error during analysis: %s" (Some (Exception c m))]
          | _ => []
          end)%list.
Proof.
  intro prompt. unfold events at 1, outcome.
  rewrite analyze_code_steps, analyze_body_steps. simpl.
  rewrite dispatch_events. fold prompt.
  destruct (outcome _ _) as [[s d | c m] | t]; simpl;
    rewrite ?app_nil_r, <- ?app_assoc; reflexivity.
Qed.

(** ** What becomes of the provider's answer *)

(** X3: on the Groq path, when [chat.completions.create] has returned
    an object on which [choices[0].message.content] evaluates to a
    value, the handler returns the dict with the verdict of step A and
    that value as [analysis], unchanged and of whatever type ([None]
    included: [analysis] need not be a string); when the evaluation
    raises an exception that is not an [HTTPException], the handler
    returns the error body with that exception's text.  Either way the
    world the call left is the world the request leaves. *)
Theorem groq_content_passes_through g p w c r w2 :
  String.eqb (model p) "groq" = true ->
  groq_client g = Some c ->
  chat_completions_create c
    (groq_messages (build_prompt (verdict g p w) (code p)))
    "llama-3.3-70b-versatile" (world_after (scan_step g p) w) = (inr r, w2) ->
  (forall v, groq_text r = inr v ->
     outcome (analyze_code container_str g p) w =
       inr {| security_score := verdict g p w; analysis := v |})
  /\ (forall cls m, groq_text r = inl (Exception cls m) ->
        outcome (analyze_code container_str g p) w =
          inr {| security_score := "error";
                 analysis := PyStr ("Backend Error: " ++ m) |})
  /\ world_after (analyze_code container_str g p) w = w2.
Proof.
  intros Hm Hc Hcall.
  destruct (analyze_code_answer W container_str g p w) as [Hout Hworld].
  pose proof (dispatch_groq_runs W container_str g p
                (build_prompt (verdict g p w) (code p))
                (world_after (scan_step g p) w) c Hm Hc) as Hd.
  rewrite Hcall in Hd. simpl in Hd.
  assert (Ho : outcome (analyze_code container_str g p) w =
               answer_of (verdict g p w) (groq_text r)).
  { rewrite Hout. unfold outcome. now rewrite Hd. }
  assert (Hw : world_after (analyze_code container_str g p) w = w2).
  { rewrite Hworld. unfold world_after at 1. now rewrite Hd. }
  split; [| split].
  - intros v Hv. now rewrite Ho, Hv.
  - intros cls m He. now rewrite Ho, He.
  - exact Hw.
Qed.

(** X4: on the Gemini path, for a returned response that is plain data
    (its [str()] returns, its [text] is a stored attribute or is
    missing): a response that has a [text] attribute gives that
    attribute's value as [analysis], unchanged and without any fallback,
    also when the value is [None]; [str(response)] is the [analysis] only
    when reading [text] raises [AttributeError].  In both cases the
    handler returns the dict with the verdict of step A. *)
Theorem gemini_text_passes_through g p w c r w2 :
  String.eqb (model p) "groq" = false ->
  gemini_client g = Some c ->
  models_generate_content c "gemini-2.0-flash"
    (build_prompt (verdict g p w) (code p))
    (world_after (scan_step g p) w) = (inr r, w2) ->
  (forall v, py_getattr r "text" = inr v ->
     outcome (analyze_code container_str g p) w =
       inr {| security_score := verdict g p w; analysis := v |})
  /\ (forall m, py_getattr r "text" = inl (Exception "AttributeError" m) ->
        outcome (analyze_code container_str g p) w =
          inr {| security_score := verdict g p w;
                 analysis := PyStr (py_str container_str r) |})
  /\ world_after (analyze_code container_str g p) w = w2.
Proof.
  intros Hm Hc Hcall.
  destruct (analyze_code_answer W container_str g p w) as [Hout Hworld].
  pose proof (dispatch_gemini_runs W container_str g p
                (build_prompt (verdict g p w) (code p))
                (world_after (scan_step g p) w) c Hm Hc) as Hd.
  rewrite Hcall in Hd. simpl in Hd.
  assert (Ho : outcome (analyze_code container_str g p) w =
               inr {| security_score := verdict g p w;
                      analysis := gemini_text container_str r |}).
  { rewrite Hout. unfold outcome. now rewrite Hd. }
  assert (Hw : world_after (analyze_code container_str g p) w = w2).
  { rewrite Hworld. unfold world_after at 1. now rewrite Hd. }
  unfold gemini_text, py_getattr_default in Ho.
  split; [| split].
  - intros v Hv. now rewrite Ho, Hv.
  - intros m He. now rewrite Ho, He.
  - exact Hw.
Qed.

(** ** The prompt *)

Lemma str_length_app (a b : string) :
  String.length (a ++ b) = String.length a + String.length b.
Proof. induction a as [| x a IH]; simpl; [reflexivity | now rewrite IH]. Qed.

Lemma str_app_cancel_r (a b t : string) : a ++ t = b ++ t -> a = b.
Proof.
  revert b. induction a as [| x a IH]; intros [| y b] H; simpl in H.
  - reflexivity.
  - exfalso. apply (f_equal String.length) in H. simpl in H.
    rewrite str_length_app in H. lia.
  - exfalso. apply (f_equal String.length) in H. simpl in H.
    rewrite str_length_app in H. lia.
  - injection H as -> H. f_equal. now apply IH.
Qed.

(** X5: the prompt is 169 characters longer than the verdict and the
    code together: the whole of [code] goes to the provider, however long
    it is, while the scanner is given 512 characters at most. *)
Theorem prompt_length status c :
  String.length (build_prompt status c) = 169 + String.length status + String.length c
  /\ String.length (slice_to 512 c) <= 512
  /\ String.length c <= String.length (build_prompt status c).
Proof.
  assert (H : String.length (build_prompt status c) =
              169 + String.length status + String.length c).
  { unfold build_prompt, indent, nl. simpl.
    rewrite str_length_app. simpl. rewrite str_length_app. simpl. lia. }
  split; [exact H |]. split; [| lia].
  rewrite slice_to_length. apply Nat.le_min_l.
Qed.

(** X6: the prompt determines the request it was built for: two
    prompts built from verdicts of step A are equal only when the
    verdicts are equal and the codes are equal. *)
Theorem prompt_determines_request s1 s2 c1 c2 :
  (s1 = "insecure" \/ s1 = "secure" \/ s1 = "unknown") ->
  (s2 = "insecure" \/ s2 = "secure" \/ s2 = "unknown") ->
  build_prompt s1 c1 = build_prompt s2 c2 ->
  s1 = s2 /\ c1 = c2.
Proof.
  intros H1 H2 Heq.
  destruct H1 as [-> | [-> | ->]]; destruct H2 as [-> | [-> | ->]];
    unfold build_prompt, indent, nl in Heq; simpl in Heq;
    try discriminate;
    (split; [reflexivity |]);
    injection Heq as Heq; exact (str_app_cancel_r c1 c2 _ Heq).
Qed.

(** ** What the scanner sees and what its answer becomes *)

Lemma slice_to_short n s : String.length s <= n -> slice_to n s = s.
Proof.
  revert n. induction s as [| c s IH]; intros n H.
  - reflexivity.
  - destruct n as [| n]; simpl in *; [lia |]. f_equal. apply IH. lia.
Qed.

Lemma slice_to_empty n s : slice_to (S n) s = "" -> s = "".
Proof. destruct s; [reflexivity | discriminate]. Qed.

Lemma slice_to_truthy n s1 s2 :
  slice_to (S n) s1 = slice_to (S n) s2 -> truthy s1 = truthy s2.
Proof. destruct s1, s2; simpl; congruence. Qed.

(** X7: code of at most 512 characters is scanned whole; of longer
    code the scanner is given exactly 512 characters; and slicing what was
    sliced changes nothing. *)
Theorem scanner_input_bounds g p w :
  security_scanner g <> None ->
  code p <> "" ->
  (String.length (code p) <= 512 ->
   scanner_calls (events (analyze_code container_str g p) w) = [CallScanner (code p)])
  /\ (512 <= String.length (code p) ->
      exists text,
        scanner_calls (events (analyze_code container_str g p) w) = [CallScanner text]
        /\ String.length text = 512)
  /\ slice_to 512 (slice_to 512 (code p)) = slice_to 512 (code p).
Proof.
  intros Hsc Hcode.
  assert (Hcalls : scanner_calls (events (analyze_code container_str g p) w) =
                   [CallScanner (slice_to 512 (code p))]).
  { rewrite analyze_code_scanner_calls.
    destruct (scan_step_events W g p w) as [_ ->].
    destruct (security_scanner g); [| congruence].
    now rewrite (truthy_nonempty _ Hcode). }
  split; [| split].
  - intro Hlen. now rewrite Hcalls, slice_to_short.
  - intro Hlen. eexists. split; [exact Hcalls |].
    rewrite slice_to_length. apply Nat.min_l. exact Hlen.
  - apply slice_to_short. rewrite slice_to_length. apply Nat.le_min_l.
Qed.

(** X8: the verdict depends on the first 512 characters of [code]
    only: two requests whose codes agree on them get the same verdict
    from the same globals in the same world, whatever follows and whatever
    [model] they name. *)
Theorem verdict_sees_first_512_only g c1 c2 m1 m2 w :
  slice_to 512 c1 = slice_to 512 c2 ->
  verdict g {| code := c1; model := m1 |} w = verdict g {| code := c2; model := m2 |} w.
Proof.
  intro Hslice. unfold verdict, outcome, scan_step. simpl.
  rewrite (slice_to_truthy 511 c1 c2 Hslice), Hslice. reflexivity.
Qed.

(** X9: with a scanner present and [code] not empty, the verdict is
    ["unknown"] exactly when the inner [except] ran, that is when the
    trace of step A holds the record "Security scanner failed during
    analysis" with the exception that was caught; a scanner that answered
    with a label is never logged. *)
Theorem unknown_verdict_is_a_logged_failure g p w :
  security_scanner g <> None ->
  code p <> "" ->
  (verdict g p w = "unknown" <->
   exists e,
     In (Log ERROR "Security scanner failed during analysis" (Some e))
        (events (scan_step g p) w)).
Proof.
  intros Hsc Hcode. unfold verdict, outcome, events, scan_step.
  destruct (security_scanner g) as [sc |]; [| congruence].
  rewrite (truthy_nonempty _ Hcode). unfold_m; simpl.
  destruct (scanner_call sc (slice_to 512 (code p)) w) as [[e | r] w1]; simpl.
  { split; [intros _; exists e; simpl; auto | reflexivity]. }
  destruct (py_getitem0 r) as [e | first]; simpl.
  { split; [intros _; exists e; simpl; auto | reflexivity]. }
  destruct (py_get first "label" (PyStr "")) as [e | lbl]; simpl.
  { split; [intros _; exists e; simpl; auto | reflexivity]. }
  split.
  - destruct (py_eq_str lbl "LABEL_1"); discriminate.
  - intros [e [H | []]]. discriminate.
Qed.

(** X10: a scanner result whose first element is a dict without a
    ["label"] key is reported as ["secure"]: the default of [.get] is the
    empty string, which is not ["LABEL_1"]. *)
Theorem missing_label_is_secure g p w sc r w1 kvs :
  security_scanner g = Some sc ->
  code p <> "" ->
  scanner_call sc (slice_to 512 (code p)) w = (inr r, w1) ->
  py_getitem0 r = inr (PyDict kvs) ->
  assoc "label" kvs = None ->
  verdict g p w = "secure".
Proof.
  intros Hsc Hcode Hcall Hfirst Hkey.
  unfold verdict, outcome, scan_step. rewrite Hsc, (truthy_nonempty _ Hcode).
  unfold_m; simpl. rewrite Hcall; simpl. rewrite Hfirst; simpl.
  now rewrite Hkey.
Qed.

(** ** Startup *)

Lemma init_gemini_events_startup im g w :
  forallb is_startup_event (events (init_gemini im g) w) = true.
Proof.
  unfold events, init_gemini.
  destruct (genai im) as [mk |]; [| reflexivity].
  destruct (getenv im "GEMINI_API_KEY") as [key |]; [| reflexivity].
  destruct (truthy key); [| reflexivity].
  unfold_m; simpl. destruct (mk key w) as [[e | c] w1]; reflexivity.
Qed.

Lemma init_groq_events_startup im g w :
  forallb is_startup_event (events (init_groq im g) w) = true.
Proof.
  unfold events, init_groq.
  destruct (Groq im) as [mk |]; [| reflexivity].
  destruct (getenv im "GROQ_API_KEY") as [key |]; [| reflexivity].
  destruct (truthy key); [| reflexivity].
  unfold_m; simpl. destruct (mk key w) as [[e | c] w1]; reflexivity.
Qed.

Lemma filter_none {A : Type} (f h : A -> bool) (l : list A) :
  forallb h l = true -> (forall x, h x = true -> f x = false) -> filter f l = [].
Proof.
  intros Hall Hsub. induction l as [| x l IH]; [reflexivity |].
  simpl in *. apply andb_prop in Hall as [Hx Hl].
  now rewrite (Hsub x Hx), IH.
Qed.

(** X11: startup never constructs the scanner, so the slow model load
    cannot hold it up: what [from transformers import pipeline] gave has
    no influence on the globals, the trace or the world that startup
    leaves.  The first record of startup is the warning
    "transformers.pipeline not available" also when [pipeline] was
    imported.  Startup calls neither the scanner nor a provider. *)
Theorem startup_never_loads_the_scanner im g :
  (forall pl s, lifespan_startup (with_pipeline im pl) g s = lifespan_startup im g s)
  /\ (forall w,
        hd_error (events (lifespan_startup im g) w) = Some scanner_disabled_notice
        /\ filter is_pipeline_call (events (lifespan_startup im g) w) = []
        /\ provider_calls (events (lifespan_startup im g) w) = []
        /\ scanner_calls (events (lifespan_startup im g) w) = []).
Proof.
  split; [intros pl s; reflexivity |].
  intro w.
  destruct (lifespan_startup_steps W im g w) as [cg [cq [_ [_ Hrun]]]].
  simpl in Hrun. unfold events at 1 2 3 4. rewrite Hrun. simpl.
  split; [reflexivity |].
  assert (Hall : forallb is_startup_event
                   (events (init_gemini im g) w ++
                    events (init_groq im
                              {| security_scanner := security_scanner g;
                                 gemini_client := cg;
                                 groq_client := groq_client g |})
                           (world_after (init_gemini im g) w)) = true).
  { rewrite forallb_app, init_gemini_events_startup, init_groq_events_startup.
    reflexivity. }
  unfold provider_calls, scanner_calls.
  repeat split; apply (filter_none _ _ _ Hall); intros [] H; simpl in *; congruence.
Qed.

Lemma init_gemini_handle im g w c client :
  gemini_client g = None ->
  outcome (init_gemini im g) w =
    inr {| security_scanner := security_scanner g;
           gemini_client := c;
           groq_client := groq_client g |} ->
  (c = Some client <->
   exists mk key w1,
     genai im = Some mk /\ getenv im "GEMINI_API_KEY" = Some key /\ key <> ""
     /\ mk key w = (inr client, w1)).
Proof.
  intros Hnone Hout.
  destruct (init_gemini_spec W im g w) as [c' [Hout' [Hsdk [Hkey [Hthrow Hok]]]]].
  rewrite Hout in Hout'. injection Hout' as <-. rewrite Hnone in *.
  split.
  - intro Hc.
    destruct (genai im) as [mk |] eqn:Emk;
      [| destruct (Hsdk eq_refl) as [Hx _]; congruence].
    destruct (getenv im "GEMINI_API_KEY") as [key |] eqn:Ekey;
      [| destruct (Hkey ltac:(discriminate) (or_introl eq_refl)) as [Hx _]; congruence].
    destruct key as [| ch key];
      [destruct (Hkey ltac:(discriminate) (or_intror eq_refl)) as [Hx _]; congruence |].
    destruct (mk (String ch key) w) as [[e | cl] w1] eqn:Ecall.
    + destruct (Hthrow _ _ _ _ eq_refl eq_refl ltac:(discriminate) Ecall) as [Hx _].
      congruence.
    + destruct (Hok _ _ _ _ eq_refl eq_refl ltac:(discriminate) Ecall) as [Hx _].
      exists mk, (String ch key), w1. repeat split; try discriminate.
      congruence.
  - intros [mk [key [w1 [Emk [Ekey [Hne Ecall]]]]]].
    now destruct (Hok _ _ _ _ Emk Ekey Hne Ecall).
Qed.

Lemma init_groq_handle im g w c client :
  groq_client g = None ->
  outcome (init_groq im g) w =
    inr {| security_scanner := security_scanner g;
           gemini_client := gemini_client g;
           groq_client := c |} ->
  (c = Some client <->
   exists mk key w1,
     Groq im = Some mk /\ getenv im "GROQ_API_KEY" = Some key /\ key <> ""
     /\ mk key w = (inr client, w1)).
Proof.
  intros Hnone Hout.
  destruct (init_groq_spec W im g w) as [c' [Hout' [Hsdk [Hkey [Hthrow Hok]]]]].
  rewrite Hout in Hout'. injection Hout' as <-. rewrite Hnone in *.
  split.
  - intro Hc.
    destruct (Groq im) as [mk |] eqn:Emk;
      [| destruct (Hsdk eq_refl) as [Hx _]; congruence].
    destruct (getenv im "GROQ_API_KEY") as [key |] eqn:Ekey;
      [| destruct (Hkey ltac:(discriminate) (or_introl eq_refl)) as [Hx _]; congruence].
    destruct key as [| ch key];
      [destruct (Hkey ltac:(discriminate) (or_intror eq_refl)) as [Hx _]; congruence |].
    destruct (mk (String ch key) w) as [[e | cl] w1] eqn:Ecall.
    + destruct (Hthrow _ _ _ _ eq_refl eq_refl ltac:(discriminate) Ecall) as [Hx _].
      congruence.
    + destruct (Hok _ _ _ _ eq_refl eq_refl ltac:(discriminate) Ecall) as [Hx _].
      exists mk, (String ch key), w1. repeat split; try discriminate.
      congruence.
  - intros [mk [key [w1 [Emk [Ekey [Hne Ecall]]]]]].
    now destruct (Hok _ _ _ _ Emk Ekey Hne Ecall).
Qed.

(** X12: after startup a provider's handle is a client exactly when
    its SDK was imported, its key is set and not empty, and its
    constructor, called with that key, returned that client; the Groq
    constructor is called in the world the Gemini initialisation left, and
    its result does not depend on how the Gemini initialisation went. *)
Theorem startup_handles_exactly im w g1 :
  outcome (lifespan_startup im initial_globals) w = inr g1 ->
  (forall client,
     gemini_client g1 = Some client <->
     exists mk key w1,
       genai im = Some mk /\ getenv im "GEMINI_API_KEY" = Some key /\ key <> ""
       /\ mk key w = (inr client, w1))
  /\ (forall client,
        groq_client g1 = Some client <->
        exists mk key w1,
          Groq im = Some mk /\ getenv im "GROQ_API_KEY" = Some key /\ key <> ""
          /\ mk key (world_after (init_gemini im initial_globals) w) = (inr client, w1)).
Proof.
  intro Hout.
  destruct (lifespan_startup_steps W im initial_globals w) as [cg [cq [Hg [Hq Hrun]]]].
  simpl in Hg, Hq, Hrun.
  unfold outcome in Hout. rewrite Hrun in Hout. simpl in Hout.
  injection Hout as <-. simpl.
  split; intro client.
  - apply (init_gemini_handle im initial_globals w cg client eq_refl Hg).
  - apply (init_groq_handle im
             {| security_scanner := None; gemini_client := cg; groq_client := None |}
             _ cq client eq_refl Hq).
Qed.

Lemma absent_is_503 g p w :
  selected_present g p = false ->
  outcome (analyze_code container_str g p) w =
    inl (HTTPException 503
           (if String.eqb (model p) "groq" then "Groq client not available"
            else "Gemini client not available")).
Proof.
  intro Habs. unfold outcome at 1. rewrite analyze_code_steps. simpl.
  destruct (dispatch_absent W container_str g p (build_prompt (verdict g p w) (code p))
              (world_after (scan_step g p) w) Habs) as [detail [Hd Hdetail]].
  unfold outcome. rewrite Hd. simpl. now rewrite Hdetail.
Qed.

(** X13: nothing makes up for a failed initialisation: when the handle
    a request selects is [None] in the globals startup hands over, every
    such request is answered with 503 in every state the process reaches,
    before startup as well as after it. *)
Theorem failed_provider_is_503_for_life im w0 g1 (proc : Process W) p w :
  outcome (lifespan_startup im initial_globals) w0 = inr g1 ->
  selected_present g1 p = false ->
  reachable container_str im w0 proc ->
  outcome (analyze_code container_str (globals proc) p) w =
    inl (HTTPException 503
           (if String.eqb (model p) "groq" then "Groq client not available"
            else "Gemini client not available"))
  /\ http_status (outcome (analyze_code container_str (globals proc) p) w) = 503%Z.
Proof.
  intros Hstart Habs Hreach.
  assert (Hsel : selected_present (globals proc) p = false).
  { destruct (reachable_globals W container_str im w0 proc g1 Hstart Hreach)
      as [-> | [_ ->]]; [| exact Habs].
    unfold selected_present. simpl. destruct (String.eqb (model p) "groq"); reflexivity. }
  rewrite (absent_is_503 _ p w Hsel). split; reflexivity.
Qed.

End MoreProperties.

(** * The further properties at work on the stand-ins *)

(** A request for Groq, which is absent, in front of a scanner that is
    there: the scanner is called all the same. *)
Lemma scan_before_503_scenario :
  selected_present scanner_down {| code := "x=1"; model := "groq" |} = false
  /\ scanner_calls (events (analyze_code plain_str scanner_down
                              {| code := "x=1"; model := "groq" |}) 0)
       = [CallScanner "x=1"].
Proof.
  split; [reflexivity |].
  refine (proj1 (proj2 (proj2
            (absent_provider_runs_scoring_only nat plain_str scanner_down
               {| code := "x=1"; model := "groq" |} 0 eq_refl))) _ _);
    discriminate.
Defined.

(** A Groq completion whose [content] is [None]. *)
Lemma groq_none_content_scenario :
  outcome (analyze_code plain_str none_answers {| code := "x=1"; model := "groq" |}) 0
    = inr {| security_score := "unknown"; analysis := PyNone |}.
Proof.
  exact (proj1
           (groq_content_passes_through nat plain_str none_answers
              {| code := "x=1"; model := "groq" |} 0
              (stub_groq (groq_response_with PyNone)) (groq_response_with PyNone) 1
              eq_refl eq_refl eq_refl)
           PyNone eq_refl).
Defined.

(** A Gemini response whose [text] is [None]: no fallback to [str]. *)
Lemma gemini_none_text_scenario :
  outcome (analyze_code plain_str none_answers {| code := "x=1"; model := "gemini" |}) 0
    = inr {| security_score := "unknown"; analysis := PyNone |}.
Proof.
  exact (proj1
           (gemini_text_passes_through nat plain_str none_answers
              {| code := "x=1"; model := "gemini" |} 0
              (stub_gemini (PyObj "GenerateContentResponse" "GenerateContentResponse()"
                              [("text", PyNone)]))
              (PyObj "GenerateContentResponse" "GenerateContentResponse()"
                 [("text", PyNone)]) 1
              eq_refl eq_refl eq_refl)
           PyNone eq_refl).
Defined.

Lemma same_prompt_scenario :
  "unknown" = "unknown" /\ "x=1" = "x=1".
Proof.
  exact (prompt_determines_request "unknown" "unknown" "x=1" "x=1"
           (or_intror (or_intror eq_refl)) (or_intror (or_intror eq_refl)) eq_refl).
Defined.

(** Short code is scanned whole. *)
Lemma short_code_scenario :
  scanner_calls (events (analyze_code plain_str all_up
                           {| code := "x=1"; model := "gemini" |}) 0)
    = [CallScanner "x=1"].
Proof.
  refine (proj1 (scanner_input_bounds nat plain_str all_up
                   {| code := "x=1"; model := "gemini" |} 0 _ _) _);
    [discriminate | discriminate | simpl; lia].
Defined.

(** The verdict does not look at [model]. *)
Lemma same_verdict_scenario :
  verdict all_up {| code := "x=1"; model := "groq" |} 0
  = verdict all_up {| code := "x=1"; model := "gemini" |} 0.
Proof.
  exact (verdict_sees_first_512_only nat all_up "x=1" "x=1" "groq" "gemini" 0 eq_refl).
Defined.

(** A scanner that throws: ["unknown"], and the failure is in the trace. *)
Lemma logged_failure_scenario :
  verdict scanner_down {| code := "x=1"; model := "gemini" |} 0 = "unknown"
  /\ exists e,
       In (Log ERROR "Security scanner failed during analysis" (Some e))
          (events (scan_step scanner_down {| code := "x=1"; model := "gemini" |}) 0).
Proof.
  split; [reflexivity |].
  refine (proj1 (unknown_verdict_is_a_logged_failure nat scanner_down
                   {| code := "x=1"; model := "gemini" |} 0 _ _) eq_refl);
    discriminate.
Defined.

(** A result with a score and no label. *)
Lemma unlabelled_scenario :
  verdict unlabelled {| code := "x=1"; model := "gemini" |} 0 = "secure".
Proof.
  refine (missing_label_is_secure nat unlabelled {| code := "x=1"; model := "gemini" |} 0
            unlabelled_scanner (PyList [PyDict [("score", PyStr "0.98")]]) 1
            [("score", PyStr "0.98")] eq_refl _ eq_refl eq_refl eq_refl).
  discriminate.
Defined.

(** Startup on [sample_imports]: Gemini is the client its constructor
    returned, Groq, whose constructor threw, is no client at all. *)
Lemma sample_startup_handles :
  gemini_client (globals (sample_served sample_imports))
    = Some (stub_gemini (gemini_response "OK"))
  /\ forall client, groq_client (globals (sample_served sample_imports)) <> Some client.
Proof.
  pose proof (startup_handles_exactly nat sample_imports 0
                (globals (sample_served sample_imports)) eq_refl) as [Hgem Hgrq].
  split.
  - apply Hgem. exists (fun _ w => (inr (stub_gemini (gemini_response "OK")), S w)).
    exists "g-key", 1. repeat split. discriminate.
  - intros client H. discriminate H.
Defined.

(** After that startup a request for Groq is answered with 503. *)
Lemma groq_503_after_startup :
  outcome (analyze_code plain_str (globals (sample_served sample_imports))
             {| code := "x=1"; model := "groq" |}) 5
    = inl (HTTPException 503 "Groq client not available").
Proof.
  exact (proj1 (failed_provider_is_503_for_life nat plain_str sample_imports 0
                  (globals (sample_served sample_imports))
                  (sample_served sample_imports)
                  {| code := "x=1"; model := "groq" |} 5
                  eq_refl eq_refl sample_served_reachable)).
Defined.
